(** * clusterlib.storage: a key/value store on top of sqlite3 and pickle

    Shallow embedding of [clusterlib/storage.py] ([sqlite3_loads] and
    [sqlite3_dumps]) together with the part of its collaborators that the
    two functions rely on: the file system ([os.path.exists]), the sqlite3
    module (connections, the three SQL statements the module issues,
    implicit transactions, the connection context manager) and pickle. *)

From Stdlib Require Import ZArith List String Ascii Floats Lia.
From Stdlib.Strings Require Import Byte.
From stdpp Require Import base option list strings gmap.

Local Open Scope string_scope.
Local Open Scope list_scope.
Set Warnings "-register-all".


(** ** Values *)

Definition bytes := list byte.

#[global] Instance byte_eq_dec : EqDecision byte := Byte.byte_eq_dec.

(** Python objects handed to the store.  [PyFunction] stands for an
    object pickle refuses (a lambda, an open file, ...). *)
Inductive pyobj :=
| PyNone
| PyBool (b : bool)
| PyInt (z : Z)
| PyStr (s : string)
| PyBytes (b : bytes)
| PyList (l : list pyobj)
| PyFunction (name : string).

(** The [key] argument of [sqlite3_loads]: "str or list of str". *)
Inductive key_arg :=
| KeyStr (k : string)
| KeyList (ks : list string).

(** Exceptions the two functions can let through. *)
Inductive exn :=
| IntegrityError      (* sqlite3: UNIQUE / PRIMARY KEY constraint failed *)
| OperationalError    (* sqlite3: no such table, no such column, ... *)
| ProgrammingError    (* sqlite3: use of a closed connection *)
| PicklingError
| UnpicklingError
| TypeError
| IndexError.

(** ** sqlite3: data

    What is kept of sqlite3 is what the module uses: tables of rows under
    named columns, one file per database, files named by their path (the
    directory of a path is taken to exist), every file a database.  Type
    affinity plays no part: the module stores text in its text column and
    blobs in its blob column. *)

Inductive sqlval :=
| SqlNull
| SqlText (s : string)
| SqlBlob (b : bytes).

#[global] Instance sqlval_eq_dec : EqDecision sqlval.
Proof. solve_decision. Defined.

Inductive coltype := TEXT | BLOB.

#[global] Instance coltype_eq_dec : EqDecision coltype.
Proof. solve_decision. Defined.

Record column := Column {
  col_name : string;
  col_type : coltype;
  col_primary_key : bool
}.

#[global] Instance column_eq_dec : EqDecision column.
Proof. solve_decision. Defined.

Definition row := list sqlval.

Record table := Table {
  tbl_columns : list column;
  tbl_rows : list row
}.

(** A database file: table name to table. *)
Abbreviation database := (gmap string table).

(** The file system, as far as this module sees it: path to sqlite file. *)
Abbreviation filesystem := (gmap string database).

(** ** sqlite3: the statements of the module *)

Inductive sql_stmt :=
| CreateTableIfNotExists (name : string) (cols : list column)
| InsertInto (name : string) (cols : list string) (params : list sqlval)
| SelectWhere (col : string) (name : string) (where_col : string) (param : sqlval).

(** Position of a column in a table. *)
Fixpoint column_index (c : string) (cols : list column) : option nat :=
  match cols with
  | [] => None
  | x :: cols' =>
      if bool_decide (col_name x = c) then Some 0
      else S <$> column_index c cols'
  end.

(** Cell of a row ([NULL] when the row is too short). *)
Definition cell (r : row) (i : nat) : sqlval := default SqlNull (r !! i).

(** SQL [=]: a comparison with NULL is never true. *)
Definition sql_eq (a b : sqlval) : bool :=
  match a, b with
  | SqlNull, _ | _, SqlNull => false
  | _, _ => bool_decide (a = b)
  end.

(** Value given to a table column by [INSERT INTO t(cols) VALUES params]. *)
Fixpoint assigned (c : string) (cols : list string) (params : list sqlval) : sqlval :=
  match cols, params with
  | x :: cols', p :: params' => if bool_decide (x = c) then p else assigned c cols' params'
  | _, _ => SqlNull
  end.

(** [i]-th column is a primary key a stored row shares with the new row. *)
Definition pk_clash (cols : list column) (rows : list row) (new : row) : bool :=
  existsb (fun i =>
    match cols !! i with
    | Some c => col_primary_key c && existsb (fun r => sql_eq (cell r i) (cell new i)) rows
    | None => false
    end) (seq 0 (length cols)).

(** One statement on one database: the rows it returns and the database
    afterwards, or the exception sqlite3 raises. *)
Definition sql_exec (s : sql_stmt) (db : database) : exn + (list row * database) :=
  match s with
  | CreateTableIfNotExists name cols =>
      match db !! name with
      | Some _ => inr ([], db)
      | None => inr ([], <[name := Table cols []]> db)
      end
  | InsertInto name cols params =>
      match db !! name with
      | None => inl OperationalError
      | Some t =>
          if forallb (fun c => bool_decide (is_Some (column_index c (tbl_columns t)))) cols
             && bool_decide (length cols = length params)
          then
            let new := map (fun c => assigned (col_name c) cols params) (tbl_columns t) in
            if pk_clash (tbl_columns t) (tbl_rows t) new then inl IntegrityError
            else inr ([], <[name := Table (tbl_columns t) (tbl_rows t ++ [new])]> db)
          else inl OperationalError
      end
  | SelectWhere c name wc param =>
      match db !! name with
      | None => inl OperationalError
      | Some t =>
          match column_index c (tbl_columns t), column_index wc (tbl_columns t) with
          | Some i, Some j =>
              inr (map (fun r => [cell r i])
                     (filter (fun r => sql_eq (cell r j) param = true) (tbl_rows t)), db)
          | _, _ => inl OperationalError
          end
      end
  end.

(** ** The world the two functions run in *)

(** A [sqlite3.Connection].  [conn_begin] is [Some db] while a transaction
    is open on the connection, [db] being the file's content when the
    transaction began (what a rollback restores). *)
Record connection := Connection {
  conn_fname : string;
  conn_timeout : float;
  conn_begin : option database;
  conn_closed : bool
}.

(** Files on disk and every connection object created so far; a connection
    is named by its position in [w_conns]. *)
Record world := World {
  w_files : filesystem;
  w_conns : list connection
}.

(** Computations: a world in, a value or a raised exception and a world out. *)
Definition M (A : Type) : Type := world -> (exn + A) * world.

#[global] Instance M_ret : MRet M := fun A a w => (inr a, w).
#[global] Instance M_bind : MBind M := fun A B f m w =>
  match m w with
  | (inr a, w') => f a w'
  | (inl e, w') => (inl e, w')
  end.

Definition raise {A} (e : exn) : M A := fun w => (inl e, w).

Definition lift_option {A} (e : exn) (o : option A) : M A :=
  match o with Some a => mret a | None => raise e end.

(** [os.path.exists]. *)
Definition os_path_exists (fname : string) : M bool :=
  fun w => (inr (bool_decide (is_Some (w_files w !! fname))), w).

(** [sqlite3.connect(fname, timeout=timeout)]: a new open connection; the
    file is created, empty, when there is none. *)
Definition sqlite3_connect (fname : string) (timeout : float) : M nat :=
  fun w =>
    let files := match w_files w !! fname with
                 | Some _ => w_files w
                 | None => <[fname := ∅]> (w_files w)
                 end in
    (inr (length (w_conns w)),
     World files (w_conns w ++ [Connection fname timeout None false])).

Definition set_begin (b : option database) (c : connection) : connection :=
  Connection (conn_fname c) (conn_timeout c) b (conn_closed c).

(** [connection.execute(sql, params)] / [cursor.execute(sql, params)].  As
    the sqlite3 module does by default, a transaction is begun before an
    [INSERT] when none is open; [CREATE TABLE] and [SELECT] begin none. *)
Definition conn_execute (c : nat) (s : sql_stmt) : M (list row) :=
  fun w =>
    match w_conns w !! c with
    | None => (inl ProgrammingError, w)
    | Some cn =>
        if conn_closed cn then (inl ProgrammingError, w)
        else
          let db := default ∅ (w_files w !! conn_fname cn) in
          let cn' := match s, conn_begin cn with
                     | InsertInto _ _ _, None => set_begin (Some db) cn
                     | _, _ => cn
                     end in
          match sql_exec s db with
          | inl OperationalError => (inl OperationalError, w)
          | inl e => (inl e, World (w_files w) (<[c := cn']> (w_conns w)))
          | inr (rows, db') =>
              (inr rows, World (<[conn_fname cn := db']> (w_files w))
                               (<[c := cn']> (w_conns w)))
          end
    end.

(** [connection.commit()]. *)
Definition conn_commit (c : nat) : M unit :=
  fun w =>
    match w_conns w !! c with
    | None => (inl ProgrammingError, w)
    | Some cn =>
        if conn_closed cn then (inl ProgrammingError, w)
        else (inr (), World (w_files w) (<[c := set_begin None cn]> (w_conns w)))
    end.

(** [connection.rollback()]. *)
Definition conn_rollback (c : nat) : M unit :=
  fun w =>
    match w_conns w !! c with
    | None => (inl ProgrammingError, w)
    | Some cn =>
        if conn_closed cn then (inl ProgrammingError, w)
        else
          let files := match conn_begin cn with
                       | Some db => <[conn_fname cn := db]> (w_files w)
                       | None => w_files w
                       end in
          (inr (), World files (<[c := set_begin None cn]> (w_conns w)))
    end.

(** [with connection: body].  The context manager of a sqlite3 connection
    commits when the body ends normally and rolls back when it raises, the
    exception going on to the caller; it does not close the connection. *)
Definition with_connection {A} (c : nat) (body : M A) : M A :=
  fun w =>
    match body w with
    | (inr a, w') =>
        match conn_commit c w' with
        | (inr _, w'') => (inr a, w'')
        | (inl e, w'') => (inl e, w'')
        end
    | (inl e, w') => (inl e, (conn_rollback c w').2)
    end.

(** [cursor.fetchone()] on the rows the last [execute] produced. *)
Definition fetchone (rows : list row) : option row := head rows.

(** [value[0]] on a result tuple. *)
Definition index0 {A} (l : list A) : M A := lift_option IndexError (head l).

(** [bytes(value)] on what sqlite3 returns for a cell. *)
Definition bytes_of (v : sqlval) : M bytes :=
  match v with
  | SqlBlob b => mret b
  | _ => raise TypeError
  end.

(** The table the module keeps: [dict (key TEXT PRIMARY KEY, value BLOB)]. *)
Definition dict_columns : list column :=
  [Column "key" TEXT true; Column "value" BLOB false].

(** The row [sqlite3_dumps] inserts. *)
Definition dict_row (k : string) (b : bytes) : row := [SqlText k; SqlBlob b].

(** [timeout=7200.0]. *)
Definition default_timeout : float := 7200%float.

(** ** A pickle to run the model with

    A small stack-machine codec in the manner of pickle (opcodes pushed on
    a stack, [MARK] ... [APPENDS] for lists, [STOP] at the end), read one
    byte at a time.  It covers [None], booleans, integers and strings that
    fit one length byte, and lists of these, nested at will; it refuses the
    rest.  The theorems below hold for any pickle that decodes what it
    encodes; this one instantiates them. *)
Module MiniPickle.

Definition HIGHEST_PROTOCOL : Z := 5.

Inductive item := Obj (o : pyobj) | Mark.

Inductive arg := AInt | AProto | AStrLen | ABytesLen.
Inductive payload := DStr | DBytes.

Inductive mode :=
| Op
| Arg (a : arg)
| Data (k : payload) (n : nat) (acc : bytes)
| Halt (o : pyobj)
| Fail.

Definition finish (k : payload) (d : bytes) : pyobj :=
  match k with
  | DStr => PyStr (string_of_list_byte d)
  | DBytes => PyBytes d
  end.

Definition enter_data (k : payload) (n : nat) (stack : list item) : mode * list item :=
  match n with
  | O => (Op, Obj (finish k []) :: stack)
  | S n' => (Data k n' [], stack)
  end.

Fixpoint pop_mark (stack : list item) (acc : list pyobj) : option (list pyobj * list item) :=
  match stack with
  | Obj o :: s => pop_mark s (o :: acc)
  | Mark :: s => Some (acc, s)
  | [] => None
  end.

Definition step (st : mode * list item) (x : byte) : mode * list item :=
  let '(m, stack) := st in
  match m with
  | Op =>
      match x with
      | x4e => (Op, Obj PyNone :: stack)
      | x88 => (Op, Obj (PyBool true) :: stack)
      | x89 => (Op, Obj (PyBool false) :: stack)
      | x4b => (Arg AInt, stack)
      | x8c => (Arg AStrLen, stack)
      | x43 => (Arg ABytesLen, stack)
      | x80 => (Arg AProto, stack)
      | x5d => (Op, Obj (PyList []) :: stack)
      | x28 => (Op, Mark :: stack)
      | x65 =>
          match pop_mark stack [] with
          | Some (items, Obj (PyList l) :: stack') => (Op, Obj (PyList (l ++ items)) :: stack')
          | _ => (Fail, stack)
          end
      | x2e =>
          match stack with
          | [Obj o] => (Halt o, [])
          | _ => (Fail, stack)
          end
      | _ => (Fail, stack)
      end
  | Arg AInt => (Op, Obj (PyInt (Z.of_N (Byte.to_N x))) :: stack)
  | Arg AProto => (Op, stack)
  | Arg AStrLen => enter_data DStr (N.to_nat (Byte.to_N x)) stack
  | Arg ABytesLen => enter_data DBytes (N.to_nat (Byte.to_N x)) stack
  | Data k n acc =>
      match n with
      | O => (Op, Obj (finish k (acc ++ [x])) :: stack)
      | S n' => (Data k n' (acc ++ [x]), stack)
      end
  | Halt o => (Halt o, stack)
  | Fail => (Fail, stack)
  end.

Definition run (data : bytes) (st : mode * list item) : mode * list item :=
  fold_left step data st.

Definition loads (data : bytes) : option pyobj :=
  match run data (Op, []) with
  | (Halt o, _) => Some o
  | _ => None
  end.

Definition sized (op : byte) (d : bytes) : option bytes :=
  n ← Byte.of_N (N.of_nat (length d)); Some (op :: n :: d).

(** The encodings of the elements of a list, one after the other. *)
Definition concat_enc (f : pyobj -> option bytes) : list pyobj -> option bytes :=
  fix go (l : list pyobj) : option bytes :=
    match l with
    | [] => Some []
    | o :: l' => b ← f o; bs ← go l'; Some (b ++ bs)
    end.

Fixpoint enc (o : pyobj) : option bytes :=
  match o with
  | PyNone => Some [x4e]
  | PyBool true => Some [x88]
  | PyBool false => Some [x89]
  | PyInt z =>
      if bool_decide (0 <= z)%Z
      then n ← Byte.of_N (Z.to_N z); Some [x4b; n]
      else None
  | PyStr s => sized x8c (list_byte_of_string s)
  | PyBytes d => sized x43 d
  | PyList l =>
      items ← concat_enc enc l;
      Some ([x5d; x28] ++ items ++ [x65])
  | PyFunction _ => None
  end.

Definition dumps (o : pyobj) (protocol : Z) : option bytes :=
  if bool_decide (0 <= protocol <= HIGHEST_PROTOCOL)%Z
  then
    body ← enc o;
    if bool_decide (2 <= protocol)%Z
    then p ← Byte.of_N (Z.to_N protocol); Some ([x80; p] ++ body ++ [x2e])
    else Some (body ++ [x2e])
  else None.

End MiniPickle.

(** ** Worlds to run the model in *)

Definition mini_payload (v : pyobj) : bytes :=
  default [] (MiniPickle.dumps v MiniPickle.HIGHEST_PROTOCOL).

(** A nested value. *)
Definition nested : pyobj :=
  PyList [PyStr "x"; PyNone; PyList [PyInt 3; PyBool true; PyList []]].

(** The store of the example: [a = "x"] and [b = "y"]. *)
Definition example_entries : list (string * pyobj) :=
  [("a", PyStr "x"); ("b", PyStr "y")].

Definition example_db : database :=
  {["dict" := Table dict_columns
                (map (fun kv => dict_row kv.1 (mini_payload kv.2)) example_entries)]}.

Definition empty_world : world := World ∅ [].

Definition example_world : world := World {["db" := example_db]} [].

(** A store whose only payload is not a pickle. *)
Definition corrupt_world : world :=
  World {["db" := {["dict" := Table dict_columns [dict_row "a" [x00]]]}]} [].

Section Storage.

(** pickle is a collaborator: [pickle.dumps(obj, protocol)] gives the
    payload or raises [PicklingError] ([None]); [pickle.loads] gives the
    object or raises [UnpicklingError] ([None]). *)
Variable HIGHEST_PROTOCOL : Z.
Variable pickle_dumps : pyobj -> Z -> option bytes.
Variable pickle_loads : bytes -> option pyobj.

(** An element of [out] turned into a Python object:
    [None if value is None else pickle.loads(bytes(value))]. *)
Definition decode (value : sqlval) : M pyobj :=
  match value with
  | SqlNull => mret PyNone
  | _ => b ← bytes_of value; lift_option UnpicklingError (pickle_loads b)
  end.

(** [sqlite3_loads(fname, key, timeout=7200.0)].  A [str] key becomes a
    list of one key; when the file exists, each key is looked up in turn
    over one connection, inside its [with] block, a missing row giving
    [None] (NULL here), and the values found are unpickled once the block
    is left; when the file does not exist, there is one [None] per key;
    a result for exactly one key is returned without its list. *)
Definition sqlite3_loads (fname : string) (key : key_arg)
    (timeout : option float) : M pyobj :=
  let timeout := default default_timeout timeout in
  let key := match key with KeyStr k => [k] | KeyList ks => ks end in
  out ← (ex ← os_path_exists fname;
         if ex : bool then
           connection ← sqlite3_connect fname timeout;
           out ← with_connection connection
                   (mapM (fun k =>
                      rows ← conn_execute connection
                               (SelectWhere "value" "dict" "key" (SqlText k));
                      match fetchone rows with
                      | None => mret SqlNull
                      | Some value => index0 value
                      end) key);
           mapM decode out
         else mret (replicate (length key) PyNone));
  if bool_decide (length key = 1%nat)
  then index0 out
  else mret (PyList out).

(** [sqlite3_dumps(fname, key, value, timeout=7200.0)].  The value is
    pickled at [pickle.HIGHEST_PROTOCOL], then the connection is opened
    and, inside its [with] block, the table is created if need be and the
    record inserted. *)
Definition sqlite3_dumps (fname : string) (key : string) (value : pyobj)
    (timeout : option float) : M unit :=
  let timeout := default default_timeout timeout in
  value ← lift_option PicklingError (pickle_dumps value HIGHEST_PROTOCOL);
  connection ← sqlite3_connect fname timeout;
  with_connection connection
    (_ ← conn_execute connection (CreateTableIfNotExists "dict" dict_columns);
     _ ← conn_execute connection
           (InsertInto "dict" ["key"; "value"] [SqlText key; SqlBlob value]);
     mret ()).

(** *** What a store holds *)

(** [db] is a store holding [entries], oldest first: its [dict] table has
    the module's columns, one row per entry with the pickled value, and no
    key twice. *)
Definition is_store (db : database) (entries : list (string * pyobj)) : Prop :=
  exists rows,
    db !! "dict" = Some (Table dict_columns rows) /\
    Forall2 (fun r kv =>
               exists b, pickle_dumps kv.2 HIGHEST_PROTOCOL = Some b /\
                         r = dict_row kv.1 b) rows entries /\
    NoDup entries.*1.

(** The value recorded for a key. *)
Definition contents (entries : list (string * pyobj)) : gmap string pyobj :=
  list_to_map entries.

(** The keys a call of [sqlite3_loads] asks for. *)
Definition keys_of (key : key_arg) : list string :=
  match key with KeyStr k => [k] | KeyList ks => ks end.

(** What [sqlite3_loads] answers for one key: the value, or [None]. *)
Definition answer (entries : list (string * pyobj)) (k : string) : pyobj :=
  default PyNone (contents entries !! k).

(** The connection a call opens. *)
Definition opened (fname : string) (timeout : option float) : connection :=
  Connection fname (default default_timeout timeout) None false.

(** Every connection created since [w] is closed in [w']. *)
Definition released (w w' : world) : Prop :=
  forall i c, (length (w_conns w) <= i)%nat -> w_conns w' !! i = Some c ->
              conn_closed c = true.

(** The pickled form of a value ([[]] when pickle refuses it). *)
Definition payload (v : pyobj) : bytes :=
  default [] (pickle_dumps v HIGHEST_PROTOCOL).

(** What the [SELECT] of [sqlite3_loads] leaves in [out] for one key. *)
Definition fetched (entries : list (string * pyobj)) (k : string) : sqlval :=
  match contents entries !! k with
  | Some v => SqlBlob (payload v)
  | None => SqlNull
  end.

Definition select_value (k : string) : sql_stmt :=
  SelectWhere "value" "dict" "key" (SqlText k).

(** What [sqlite3_loads] returns on a store holding [entries]. *)
Definition loaded (entries : list (string * pyobj)) (key : key_arg) : pyobj :=
  match keys_of key with
  | [k] => answer entries k
  | ks => PyList (map (answer entries) ks)
  end.

(** No row of [rows] has the key [key]. *)
Definition key_free (key : string) (rows : list row) : bool :=
  negb (existsb (fun r => sql_eq (cell r 0) (SqlText key)) rows).

Definition insert_record (key : string) (b : bytes) : sql_stmt :=
  InsertInto "dict" ["key"; "value"] [SqlText key; SqlBlob b].

Definition create_dict : sql_stmt :=
  CreateTableIfNotExists "dict" dict_columns.

(** The database a connection on [fname] works on. *)
Definition file_of (files : filesystem) (fname : string) : database :=
  default ∅ (files !! fname).

(** The rows of a table that may not exist yet. *)
Definition rows_of (t : option table) : list row :=
  match t with Some t => tbl_rows t | None => [] end.

(** The table is the module's, or is still to be created. *)
Definition dict_ready (t : option table) : Prop :=
  match t with Some t => tbl_columns t = dict_columns | None => True end.

(** The file at [fname] holds [entries]: it is a store holding them, or
    there is nothing yet (no file, or a file with no [dict] table) and
    [entries] is empty. *)
Definition store_at (files : filesystem) (fname : string)
    (entries : list (string * pyobj)) : Prop :=
  match files !! fname with
  | Some db => is_store db entries \/ (db !! "dict" = None /\ entries = [])
  | None => entries = []
  end.

(** What can be read at [fname]: the entries of the store there, or
    nothing where there is no file. *)
Definition readable (files : filesystem) (fname : string)
    (entries : list (string * pyobj)) : Prop :=
  match files !! fname with
  | Some db => is_store db entries
  | None => entries = []
  end.

(** pickle decodes what it encodes. *)
Hypothesis pickle_roundtrip :
  forall v b, pickle_dumps v HIGHEST_PROTOCOL = Some b -> pickle_loads b = Some v.

(** *** The monad *)

Lemma bind_inr {A B} (m : M A) (f : A -> M B) w a w' :
  m w = (inr a, w') -> (m ≫= f) w = f a w'.
Proof. intros H. unfold mbind, M_bind. by rewrite H. Qed.

Lemma world_eta w : World (w_files w) (w_conns w) = w.
Proof. by destruct w. Qed.

Lemma set_begin_id c : set_begin (conn_begin c) c = c.
Proof. by destruct c. Qed.

(** A loop whose body leaves the world alone leaves the world alone. *)
Lemma mapM_frame {A B} (f : A -> M B) (l : list A) w :
  (forall a, (f a w).2 = w) -> (mapM f l w).2 = w.
Proof.
  intros Hf. induction l as [|a l IH]; simpl; [done|].
  unfold mbind, M_bind at 1.
  specialize (Hf a). destruct (f a w) as [[e|b] w1]; simpl in Hf; subst w1; [done|].
  unfold mbind, M_bind at 1.
  destruct (mapM f l w) as [[e|bs] w2]; simpl in IH; subst w2; done.
Qed.

(** A loop whose body answers [g a] and leaves the world alone answers
    [map g]. *)
Lemma mapM_pure {A B} (f : A -> M B) (g : A -> B) (l : list A) w :
  Forall (fun a => f a w = (inr (g a), w)) l -> mapM f l w = (inr (map g l), w).
Proof.
  induction 1 as [|a l Ha _ IH]; simpl; [done|].
  erewrite bind_inr by exact Ha. erewrite bind_inr by exact IH. done.
Qed.

(** *** sqlite3 *)

(** A [SELECT] changes neither the files nor the connections. *)
Lemma select_frame c cn col name wc param w :
  w_conns w !! c = Some cn ->
  is_Some (w_files w !! conn_fname cn) ->
  (conn_execute c (SelectWhere col name wc param) w).2 = w.
Proof.
  intros Hc [db Hdb]. unfold conn_execute. rewrite Hc, Hdb. simpl.
  destruct (conn_closed cn); [done|].
  destruct (db !! name) as [t|]; [|done].
  destruct (column_index col (tbl_columns t)); [|done].
  destruct (column_index wc (tbl_columns t)); [|done].
  cbn [snd]. rewrite insert_id by done. rewrite list_insert_id by done.
  apply world_eta.
Qed.

Lemma sql_eq_text k k' :
  sql_eq (SqlText k') (SqlText k) = bool_decide (k' = k).
Proof.
  simpl. apply bool_decide_ext. split; [by intros [= ->]|by intros ->].
Qed.

(** The rows the [SELECT] finds in a store. *)
Lemma select_rows rows entries k :
  Forall2 (fun r kv =>
             exists b, pickle_dumps kv.2 HIGHEST_PROTOCOL = Some b /\
                       r = dict_row kv.1 b) rows entries ->
  head (map (fun r => [cell r 1])
          (filter (fun r => sql_eq (cell r 0) (SqlText k) = true) rows))
  = (fun v => [SqlBlob (payload v)]) <$> (contents entries !! k).
Proof.
  induction 1 as [|r [k' v] rows entries (b & Hb & ->) _ IH]; [done|].
  unfold contents in *. simpl in *.
  destruct (decide (k' = k)) as [->|Hne].
  - rewrite filter_cons_True.
    2:{ change (cell (dict_row k b) 0) with (SqlText k).
        rewrite sql_eq_text. by apply bool_decide_eq_true. }
    rewrite lookup_insert_eq. simpl. unfold payload. by rewrite Hb.
  - rewrite filter_cons_False.
    2:{ change (cell (dict_row k' b) 0) with (SqlText k').
        rewrite sql_eq_text. rewrite bool_decide_eq_true. done. }
    by rewrite lookup_insert_ne.
Qed.

(** One turn of the loop of [sqlite3_loads] on a store. *)
Lemma loads_body_store c cn db entries k w :
  w_conns w !! c = Some cn ->
  conn_closed cn = false ->
  w_files w !! conn_fname cn = Some db ->
  is_store db entries ->
  (rows ← conn_execute c (select_value k);
   match fetchone rows with
   | None => mret SqlNull
   | Some value => index0 value
   end) w = (inr (fetched entries k), w).
Proof.
  intros Hc Hopen Hdb (rows & Ht & Hrows & _).
  pose proof (select_frame c cn "value" "dict" "key" (SqlText k) w Hc
                (ex_intro _ db Hdb)) as Hw.
  fold (select_value k) in Hw.
  assert (exists rs, conn_execute c (select_value k) w = (inr rs, w) /\
            head rs = (fun v => [SqlBlob (payload v)]) <$> (contents entries !! k))
    as (rs & Hex & Hhd).
  { revert Hw. unfold conn_execute, select_value. rewrite Hc, Hopen, Hdb. simpl.
    rewrite Ht. simpl. intros Hw. eexists. split.
    - f_equal. exact Hw.
    - apply select_rows. exact Hrows. }
  erewrite bind_inr by exact Hex.
  unfold fetchone, fetched. rewrite Hhd.
  destruct (contents entries !! k); done.
Qed.

Lemma connect_existing fname t db w :
  w_files w !! fname = Some db ->
  sqlite3_connect fname t w
  = (inr (length (w_conns w)),
     World (w_files w) (w_conns w ++ [Connection fname t None false])).
Proof. intros H. unfold sqlite3_connect. by rewrite H. Qed.

Lemma connect_fresh fname t w :
  w_files w !! fname = None ->
  sqlite3_connect fname t w
  = (inr (length (w_conns w)),
     World (<[fname := ∅]> (w_files w))
           (w_conns w ++ [Connection fname t None false])).
Proof. intros H. unfold sqlite3_connect. by rewrite H. Qed.

Lemma lookup_opened {A} (l : list A) (x : A) : (l ++ [x]) !! length l = Some x.
Proof. by rewrite lookup_app_r, Nat.sub_diag by lia. Qed.

Lemma insert_opened {A} (l : list A) (x y : A) :
  <[length l := y]> (l ++ [x]) = l ++ [y].
Proof. rewrite insert_app_r_alt, Nat.sub_diag by lia. done. Qed.

(** Committing or rolling back a connection with no transaction open
    changes nothing. *)
Lemma commit_idle c cn w :
  w_conns w !! c = Some cn -> conn_closed cn = false -> conn_begin cn = None ->
  conn_commit c w = (inr (), w).
Proof.
  intros Hc Hopen Hb. unfold conn_commit. rewrite Hc, Hopen.
  rewrite <- Hb, set_begin_id, list_insert_id by done. by rewrite world_eta.
Qed.

Lemma rollback_idle c cn w :
  w_conns w !! c = Some cn -> conn_closed cn = false -> conn_begin cn = None ->
  conn_rollback c w = (inr (), w).
Proof.
  intros Hc Hopen Hb. unfold conn_rollback. rewrite Hc, Hopen, Hb.
  rewrite <- Hb, set_begin_id, list_insert_id by done. by rewrite world_eta.
Qed.

(** Around a body that leaves the world alone, on an idle connection, the
    [with] block adds nothing. *)
Lemma with_connection_frame {A} c cn (body : M A) w :
  w_conns w !! c = Some cn -> conn_closed cn = false -> conn_begin cn = None ->
  (body w).2 = w ->
  with_connection c body w = body w.
Proof.
  intros Hc Hopen Hb Hw. unfold with_connection.
  destruct (body w) as [[e|a] w1]; simpl in Hw; subst w1.
  - by erewrite rollback_idle.
  - by erewrite commit_idle.
Qed.

(** *** Reading a store *)

Lemma store_payload db entries k v :
  is_store db entries -> contents entries !! k = Some v ->
  pickle_dumps v HIGHEST_PROTOCOL = Some (payload v).
Proof.
  intros (rows & _ & Hrows & _) Hk. unfold contents in Hk.
  apply elem_of_list_to_map_2 in Hk.
  apply list_elem_of_lookup in Hk as [i Hi].
  destruct (Forall2_lookup_r _ _ _ _ _ Hrows Hi) as (r & _ & b & Hb & _).
  simpl in Hb. unfold payload. by rewrite Hb.
Qed.

Lemma decode_fetched db entries k w :
  is_store db entries ->
  decode (fetched entries k) w = (inr (answer entries k), w).
Proof.
  intros Hs. unfold fetched, answer.
  destruct (contents entries !! k) as [v|] eqn:Hk; [|done].
  simpl. unfold mbind, M_bind, mret, M_ret.
  by rewrite (pickle_roundtrip v _ (store_payload _ _ _ _ Hs Hk)).
Qed.

(** [sqlite3_loads] on the file of a store: the values in the order of the
    keys, one connection more, the files as they were. *)
Lemma loads_store fname key timeout db entries w :
  w_files w !! fname = Some db ->
  is_store db entries ->
  sqlite3_loads fname key timeout w
  = (inr (loaded entries key),
     World (w_files w) (w_conns w ++ [opened fname timeout])).
Proof.
  intros Hdb Hs. unfold sqlite3_loads, loaded. fold (keys_of key).
  set (w1 := World (w_files w) (w_conns w ++ [opened fname timeout])).
  set (c := length (w_conns w)).
  assert (Hc : w_conns w1 !! c = Some (opened fname timeout))
    by apply lookup_opened.
  set (body := fun k : string =>
    rows ← conn_execute c (SelectWhere "value" "dict" "key" (SqlText k));
    match fetchone rows with
    | None => mret SqlNull
    | Some value => index0 value
    end).
  assert (Hloop : mapM body (keys_of key) w1
                  = (inr (map (fetched entries) (keys_of key)), w1)).
  { apply mapM_pure, Forall_forall. intros k _.
    by apply (loads_body_store c (opened fname timeout) db). }
  assert (Hwith : with_connection c (mapM body (keys_of key)) w1
                  = (inr (map (fetched entries) (keys_of key)), w1)).
  { erewrite with_connection_frame; [exact Hloop|exact Hc|done|done|].
    by rewrite Hloop. }
  assert (Hdec : forall ks w',
    mapM decode (map (fetched entries) ks) w'
    = (inr (map (answer entries) ks), w')).
  { intros ks w'. induction ks as [|k ks IH]; [done|]. simpl.
    erewrite bind_inr by apply (decode_fetched db entries k w' Hs).
    erewrite bind_inr by exact IH. done. }
  assert (Hout :
    (ex ← os_path_exists fname;
     if ex : bool then
       connection ← sqlite3_connect fname (default default_timeout timeout);
       out ← with_connection connection
               (mapM (fun k =>
                  rows ← conn_execute connection
                           (SelectWhere "value" "dict" "key" (SqlText k));
                  match fetchone rows with
                  | None => mret SqlNull
                  | Some value => index0 value
                  end) (keys_of key));
       mapM decode out
     else mret (replicate (length (keys_of key)) PyNone)) w
    = (inr (map (answer entries) (keys_of key)), w1)).
  { unfold os_path_exists. unfold mbind at 1, M_bind at 1.
    rewrite Hdb, bool_decide_eq_true_2 by eauto.
    erewrite bind_inr by apply (connect_existing _ _ db _ Hdb).
    fold c w1 body. erewrite bind_inr by exact Hwith. apply Hdec. }
  erewrite bind_inr by exact Hout.
  destruct (keys_of key) as [|k [|k' ks]]; done.
Qed.

(** *** Writing a store *)

Lemma pk_clash_dict rows key b :
  pk_clash dict_columns rows (dict_row key b) = negb (key_free key rows).
Proof.
  unfold pk_clash, key_free. rewrite negb_involutive.
  change (existsb _ (seq 0 (length dict_columns)))
    with (existsb (fun r => sql_eq (cell r 0) (SqlText key)) rows || false).
  by rewrite orb_false_r.
Qed.

(** The [INSERT] of [sqlite3_dumps] on a table with the module's columns. *)
Lemma insert_dict (db : database) rows key b :
  db !! "dict" = Some (Table dict_columns rows) ->
  sql_exec (insert_record key b) db
  = if key_free key rows
    then inr ([], <["dict" := Table dict_columns (rows ++ [dict_row key b])]> db)
    else inl IntegrityError.
Proof.
  intros Ht. unfold sql_exec, insert_record. rewrite Ht.
  cbn [tbl_columns tbl_rows].
  change (forallb _ ["key"; "value"] && _) with true. cbn iota.
  change (map _ dict_columns) with (dict_row key b).
  rewrite pk_clash_dict. by destruct (key_free key rows).
Qed.

(** A statement run on the connection opened last. *)
Lemma execute_opened files conns cn s :
  conn_closed cn = false ->
  conn_execute (length conns) s (World files (conns ++ [cn]))
  = let db := file_of files (conn_fname cn) in
    let cn' := match s, conn_begin cn with
               | InsertInto _ _ _, None => set_begin (Some db) cn
               | _, _ => cn
               end in
    match sql_exec s db with
    | inl OperationalError => (inl OperationalError, World files (conns ++ [cn]))
    | inl e => (inl e, World files (conns ++ [cn']))
    | inr (rows, db') =>
        (inr rows, World (<[conn_fname cn := db']> files) (conns ++ [cn']))
    end.
Proof.
  intros Hopen. unfold conn_execute, file_of. cbn [w_conns w_files].
  rewrite lookup_opened, Hopen. cbn zeta.
  destruct (sql_exec s _) as [[]|[rows db']]; by rewrite ?insert_opened.
Qed.

Lemma commit_opened files conns cn :
  conn_closed cn = false ->
  conn_commit (length conns) (World files (conns ++ [cn]))
  = (inr (), World files (conns ++ [set_begin None cn])).
Proof.
  intros Hopen. unfold conn_commit. cbn [w_conns w_files].
  by rewrite lookup_opened, Hopen, insert_opened.
Qed.

Lemma rollback_opened files conns cn :
  conn_closed cn = false ->
  conn_rollback (length conns) (World files (conns ++ [cn]))
  = (inr (),
     World (match conn_begin cn with
            | Some db => <[conn_fname cn := db]> files
            | None => files
            end) (conns ++ [set_begin None cn])).
Proof.
  intros Hopen. unfold conn_rollback. cbn [w_conns w_files].
  by rewrite lookup_opened, Hopen, insert_opened.
Qed.

(** After [sqlite3.connect] the file exists. *)
Lemma connect_file fname t w :
  exists files,
    sqlite3_connect fname t w
    = (inr (length (w_conns w)),
       World files (w_conns w ++ [Connection fname t None false])) /\
    files !! fname = Some (file_of (w_files w) fname) /\
    forall db, <[fname := db]> files = <[fname := db]> (w_files w).
Proof.
  unfold file_of. destruct (w_files w !! fname) as [db0|] eqn:Hf.
  - exists (w_files w). split; [by apply (connect_existing _ _ db0)|]. by split.
  - exists (<[fname := ∅]> (w_files w)). split; [by apply connect_fresh|].
    split; [by rewrite lookup_insert_eq|]. intros db. by rewrite insert_insert_eq.
Qed.

(** [CREATE TABLE IF NOT EXISTS dict ...] leaves the module's table in
    place, with the rows it had. *)
Lemma create_dict_exec (db : database) :
  dict_ready (db !! "dict") ->
  exists db1,
    sql_exec create_dict db = inr ([], db1) /\
    db1 !! "dict" = Some (Table dict_columns (rows_of (db !! "dict"))) /\
    forall t, <["dict" := t]> db1 = <["dict" := t]> db.
Proof.
  intros Hready. unfold sql_exec, create_dict.
  destruct (db !! "dict") as [[cols rows]|] eqn:Ht; simpl in *.
  - subst cols. by exists db.
  - eexists. split; [done|]. split; [by rewrite lookup_insert_eq|].
    intros t. by rewrite insert_insert_eq.
Qed.

(** [sqlite3_dumps] of a value pickle accepts, on a file whose [dict]
    table is the module's or does not exist yet: the record is added when
    its key is new, and [IntegrityError] is raised, the files staying as
    they were, when it is not. *)
Lemma dumps_result fname key value b timeout w :
  pickle_dumps value HIGHEST_PROTOCOL = Some b ->
  dict_ready (file_of (w_files w) fname !! "dict") ->
  sqlite3_dumps fname key value timeout w
  = let db0 := file_of (w_files w) fname in
    let rows := rows_of (db0 !! "dict") in
    if key_free key rows
    then (inr (),
          World (<[fname := <["dict" := Table dict_columns (rows ++ [dict_row key b])]> db0]>
                   (w_files w))
                (w_conns w ++ [opened fname timeout]))
    else (inl IntegrityError,
          World (w_files w) (w_conns w ++ [opened fname timeout])).
Proof.
  intros Hb Hready. unfold sqlite3_dumps. rewrite Hb. cbn [lift_option].
  erewrite bind_inr by reflexivity.
  destruct (connect_file fname (default default_timeout timeout) w)
    as (files1 & Hconn & Hf1 & Hins).
  erewrite bind_inr by exact Hconn.
  destruct (create_dict_exec _ Hready) as (db1 & Hcr & Ht1 & Hins1).
  fold create_dict (insert_record key b).
  unfold with_connection, mbind, M_bind.
  assert (Hfile1 : file_of files1 fname = file_of (w_files w) fname)
    by (unfold file_of at 1; by rewrite Hf1).
  rewrite (execute_opened files1 (w_conns w)
             (Connection fname (default default_timeout timeout) None false)
             create_dict eq_refl).
  cbn [conn_fname conn_begin]. cbn zeta. rewrite Hfile1, Hcr.
  cbn [conn_fname set_begin conn_begin].
  rewrite (execute_opened _ (w_conns w)
             (Connection fname (default default_timeout timeout) None false)
             (insert_record key b) eq_refl).
  cbn [conn_fname conn_begin]. cbn zeta.
  assert (Hfile2 : file_of (<[fname := db1]> files1) fname = db1)
    by (unfold file_of; by rewrite lookup_insert_eq).
  rewrite Hfile2.
  rewrite (insert_dict db1 _ key b Ht1).
  cbn [conn_fname set_begin conn_begin insert_record].
  destruct (key_free key (rows_of (file_of (w_files w) fname !! "dict"))) eqn:Hfree.
  - cbn [mret M_ret]. rewrite commit_opened by done.
    cbn [set_begin conn_fname conn_timeout conn_closed].
    by rewrite insert_insert_eq, Hins, Hins1.
  - rewrite rollback_opened by done.
    cbn [set_begin conn_fname conn_timeout conn_closed conn_begin snd].
    rewrite insert_insert_eq, Hins.
    assert (exists t, file_of (w_files w) fname !! "dict" = Some t) as [t Ht].
    { destruct (file_of (w_files w) fname !! "dict"); [eauto|done]. }
    assert (w_files w !! fname = Some (file_of (w_files w) fname)) as Hex.
    { unfold file_of in *. destruct (w_files w !! fname); [done|].
      unfold default in Ht. by rewrite lookup_empty in Ht. }
    assert (db1 = file_of (w_files w) fname) as ->.
    { rewrite <- (insert_id db1 "dict" _ Ht1), Hins1.
      apply insert_id. rewrite Ht in *. simpl in Hready.
      destruct t; simpl in *; by subst. }
    by rewrite insert_id.
Qed.

Lemma key_free_rows rows entries key :
  Forall2 (fun r kv =>
             exists b, pickle_dumps kv.2 HIGHEST_PROTOCOL = Some b /\
                       r = dict_row kv.1 b) rows entries ->
  key_free key rows = bool_decide (key ∉ entries.*1).
Proof.
  unfold key_free.
  induction 1 as [|r [k v] rows entries (b & _ & ->) _ IH]; [done|].
  cbn [existsb fmap list_fmap fst]. change (cell (dict_row k b) 0) with (SqlText k).
  rewrite sql_eq_text, negb_orb, IH.
  destruct (decide (k = key)) as [->|Hne].
  - rewrite bool_decide_eq_true_2 by done. cbn [negb andb].
    symmetry. apply bool_decide_eq_false_2. rewrite not_elem_of_cons. tauto.
  - rewrite bool_decide_eq_false_2 by done. cbn [negb andb].
    apply bool_decide_ext. rewrite not_elem_of_cons. intuition congruence.
Qed.

Lemma store_at_ready files fname entries :
  store_at files fname entries ->
  dict_ready (file_of files fname !! "dict") /\
  Forall2 (fun r kv =>
             exists b, pickle_dumps kv.2 HIGHEST_PROTOCOL = Some b /\
                       r = dict_row kv.1 b)
    (rows_of (file_of files fname !! "dict")) entries /\
  NoDup entries.*1.
Proof.
  unfold store_at, file_of.
  destruct (files !! fname) as [db|]; cbn [from_option id].
  - intros [(rows & Ht & Hrows & Hnd)|[Ht ->]]; rewrite Ht; cbn.
    + done.
    + repeat split; [constructor|constructor].
  - intros ->. rewrite lookup_empty. cbn. repeat split; constructor.
Qed.

(** A successful [sqlite3_dumps] turns a store holding [entries] into a
    store holding [entries] and the new record. *)
Lemma dumps_store fname key value b timeout entries w :
  pickle_dumps value HIGHEST_PROTOCOL = Some b ->
  store_at (w_files w) fname entries ->
  key ∉ entries.*1 ->
  exists db',
    sqlite3_dumps fname key value timeout w
    = (inr (), World (<[fname := db']> (w_files w))
                     (w_conns w ++ [opened fname timeout])) /\
    is_store db' (entries ++ [(key, value)]).
Proof.
  intros Hb Hat Hnew.
  destruct (store_at_ready _ _ _ Hat) as (Hready & Hrows & Hnd).
  rewrite (dumps_result fname key value b timeout w Hb Hready). cbn zeta.
  rewrite (key_free_rows _ _ key Hrows), bool_decide_eq_true_2 by done.
  eexists. split; [reflexivity|].
  eexists. split; [apply lookup_insert_eq|]. split.
  - apply Forall2_app; [exact Hrows|]. repeat constructor. by exists b.
  - rewrite fmap_app. apply NoDup_app. split; [done|].
    split; [|apply NoDup_singleton].
    intros k Hk ->%list_elem_of_singleton. done.
Qed.

(** The record just stored is what the store answers for its key, and
    the older answers stand. *)
Lemma answer_new entries key value :
  key ∉ entries.*1 -> answer (entries ++ [(key, value)]) key = value.
Proof.
  intros Hnew. unfold answer, contents.
  induction entries as [|[k v] entries IH]; cbn.
  - by rewrite lookup_insert_eq.
  - cbn in Hnew. apply not_elem_of_cons in Hnew as [Hne Hnew].
    rewrite lookup_insert_ne by done. by apply IH.
Qed.

(** *** What a call leaves behind, whatever the files hold *)

Lemma bind_frame {A B} (m : M A) (f : A -> M B) w w' :
  (m w).2 = w' -> (forall a, (f a w').2 = w') -> ((m ≫= f) w).2 = w'.
Proof.
  intros Hm Hf. unfold mbind, M_bind.
  destruct (m w) as [[e|a] w1]; simpl in Hm; subst w1; [done|apply Hf].
Qed.

Lemma lift_option_frame {A} e (o : option A) w : (lift_option e o w).2 = w.
Proof. by destruct o. Qed.

Lemma decode_frame value w : (decode value w).2 = w.
Proof.
  destruct value as [|s|b]; try done.
  cbn [decode bytes_of]. apply bind_frame; [done|].
  intros a. apply lift_option_frame.
Qed.

(** [sqlite3_loads] changes no file, whatever it finds and whether it
    returns or raises; it leaves one more connection, idle and open, when
    the file exists, and none when it does not. *)
Lemma loads_world fname key timeout w :
  (sqlite3_loads fname key timeout w).2
  = if bool_decide (is_Some (w_files w !! fname))
    then World (w_files w) (w_conns w ++ [opened fname timeout])
    else w.
Proof.
  unfold sqlite3_loads. fold (keys_of key).
  set (w' := if bool_decide (is_Some (w_files w !! fname))
             then World (w_files w) (w_conns w ++ [opened fname timeout])
             else w).
  apply bind_frame.
  2:{ intros out. destruct (bool_decide (length (keys_of key) = 1%nat)); [|done].
      apply lift_option_frame. }
  unfold os_path_exists. unfold mbind at 1, M_bind at 1. subst w'.
  destruct (bool_decide (is_Some (w_files w !! fname))) eqn:Hex; [|done].
  apply bool_decide_eq_true in Hex as [db Hdb].
  erewrite bind_inr by apply (connect_existing _ _ db _ Hdb).
  fold (opened fname timeout).
  set (w1 := World (w_files w) (w_conns w ++ [opened fname timeout])).
  assert (Hc : w_conns w1 !! length (w_conns w) = Some (opened fname timeout))
    by apply lookup_opened.
  apply bind_frame; [|intros out; apply mapM_frame; intros v; apply decode_frame].
  erewrite with_connection_frame; [|exact Hc|done|done|].
  - apply mapM_frame. intros k. apply bind_frame.
    + apply (select_frame _ _ _ _ _ _ _ Hc). cbn. eauto.
    + intros rows. destruct (fetchone rows); [apply lift_option_frame|done].
  - apply mapM_frame. intros k. apply bind_frame.
    + apply (select_frame _ _ _ _ _ _ _ Hc). cbn. eauto.
    + intros rows. destruct (fetchone rows); [apply lift_option_frame|done].
Qed.

(** [sqlite3_dumps] of a value pickle refuses raises before anything is
    opened. *)
Lemma dumps_unpicklable fname key value timeout w :
  pickle_dumps value HIGHEST_PROTOCOL = None ->
  sqlite3_dumps fname key value timeout w = (inl PicklingError, w).
Proof. intros Hb. unfold sqlite3_dumps. by rewrite Hb. Qed.

(** Once the value is pickled, [sqlite3_dumps] leaves one more
    connection, idle and open, whether it returns or raises. *)
Lemma dumps_conns fname key value b timeout w :
  pickle_dumps value HIGHEST_PROTOCOL = Some b ->
  w_conns (sqlite3_dumps fname key value timeout w).2
  = w_conns w ++ [opened fname timeout].
Proof.
  intros Hb. unfold sqlite3_dumps. rewrite Hb. cbn [lift_option].
  erewrite bind_inr by reflexivity.
  destruct (connect_file fname (default default_timeout timeout) w)
    as (files1 & Hconn & _ & _).
  erewrite bind_inr by exact Hconn.
  unfold with_connection, mbind, M_bind.
  rewrite (execute_opened files1 (w_conns w)
             (Connection fname (default default_timeout timeout) None false)
             _ eq_refl).
  cbn [conn_fname conn_begin]. cbn zeta.
  set (db0 := file_of files1 fname).
  assert (exists db1, sql_exec (CreateTableIfNotExists "dict" dict_columns) db0
                      = inr ([], db1)) as [db1 ->].
  { unfold sql_exec. destruct (db0 !! "dict"); eauto. }
  rewrite (execute_opened _ (w_conns w)
             (Connection fname (default default_timeout timeout) None false)
             _ eq_refl).
  cbn [conn_fname conn_begin]. cbn zeta.
  destruct (sql_exec _ _) as [[]|[rows db2]];
    cbn [mret M_ret];
    rewrite ?commit_opened, ?rollback_opened by done; done.
Qed.

(** [sqlite3_loads] where there is no file: [None] for every key, and the
    world as it was. *)
Lemma loads_no_file fname key timeout w :
  w_files w !! fname = None ->
  sqlite3_loads fname key timeout w
  = (inr (match keys_of key with
          | [_] => PyNone
          | ks => PyList (replicate (length ks) PyNone)
          end), w).
Proof.
  intros Hno. unfold sqlite3_loads. fold (keys_of key).
  erewrite bind_inr.
  2:{ unfold os_path_exists, mbind, M_bind.
      rewrite Hno, bool_decide_eq_false_2 by (by intros [? ?]). reflexivity. }
  destruct (keys_of key) as [|k [|k' ks]]; done.
Qed.

Lemma loads_readable fname key timeout entries w :
  readable (w_files w) fname entries ->
  (sqlite3_loads fname key timeout w).1 = inr (loaded entries key).
Proof.
  unfold readable. destruct (w_files w !! fname) as [db|] eqn:Hf.
  - intros Hs. by rewrite (loads_store fname key timeout db entries w Hf Hs).
  - intros ->. rewrite (loads_no_file fname key timeout w Hf). cbn [fst].
    unfold loaded. destruct (keys_of key) as [|k [|k' ks]]; try done.
    do 2 f_equal. generalize (k :: k' :: ks). intros l.
    induction l as [|a l IH]; [done|]. cbn [length replicate map]. by f_equal.
Qed.

(** *** The properties of the module *)

(** C1.  Round trip: storing [value] under a key the store does not hold
    yet (the store may not exist yet either) and then loading that key
    returns [value], whatever the shape of [value], as long as pickle
    accepts it. *)
Theorem store_then_load_roundtrip fname key value b entries t1 t2 w :
  pickle_dumps value HIGHEST_PROTOCOL = Some b ->
  store_at (w_files w) fname entries ->
  key ∉ entries.*1 ->
  exists w',
    sqlite3_dumps fname key value t1 w = (inr (), w') /\
    (sqlite3_loads fname (KeyStr key) t2 w').1 = inr value.
Proof.
  intros Hb Hat Hnew.
  destruct (dumps_store fname key value b t1 entries w Hb Hat Hnew)
    as (db' & Hdumps & Hs).
  eexists. split; [exact Hdumps|].
  rewrite (loads_store fname (KeyStr key) t2 db' _ _
             (lookup_insert_eq _ _ _) Hs).
  cbn [fst loaded keys_of]. by rewrite answer_new.
Qed.

(** C2.  Storing under a key the store already holds raises
    [IntegrityError] (the duplicate-key error), changes no file, and the
    value held for the key is still what a load returns. *)
Theorem second_store_fails_first_value_stays
    fname key v0 value b db entries t1 t2 w :
  w_files w !! fname = Some db ->
  is_store db entries ->
  contents entries !! key = Some v0 ->
  pickle_dumps value HIGHEST_PROTOCOL = Some b ->
  exists w',
    sqlite3_dumps fname key value t1 w = (inl IntegrityError, w') /\
    w_files w' = w_files w /\
    (sqlite3_loads fname (KeyStr key) t2 w').1 = inr v0.
Proof.
  intros Hf Hs Hk Hb.
  assert (Hat : store_at (w_files w) fname entries)
    by (unfold store_at; rewrite Hf; by left).
  destruct (store_at_ready _ _ _ Hat) as (Hready & Hrows & _).
  exists (World (w_files w) (w_conns w ++ [opened fname t1])).
  split; [|split].
  - rewrite (dumps_result fname key value b t1 w Hb Hready). cbn zeta.
    rewrite (key_free_rows _ _ key Hrows), bool_decide_eq_false_2; [done|].
    intros Hnot. apply Hnot. unfold contents in Hk.
    apply elem_of_list_to_map_2 in Hk.
    apply list_elem_of_fmap. by exists (key, v0).
  - done.
  - rewrite (loads_store fname (KeyStr key) t2 db entries
               (World (w_files w) (w_conns w ++ [opened fname t1])) Hf Hs).
    cbn [fst loaded keys_of]. unfold answer. by rewrite Hk.
Qed.

(** C3.  Loading a list of two or more keys from a store returns a list
    with one result per key, in the order of the keys: the stored value
    where the key is held, [None] where it is not. *)
Theorem load_list_follows_key_order fname ks db entries t w :
  w_files w !! fname = Some db ->
  is_store db entries ->
  (2 <= length ks)%nat ->
  exists out,
    (sqlite3_loads fname (KeyList ks) t w).1 = inr (PyList out) /\
    length out = length ks /\
    forall i k, ks !! i = Some k ->
      out !! i = Some (match contents entries !! k with
                       | Some v => v
                       | None => PyNone
                       end).
Proof.
  intros Hf Hs Hlen. exists (map (answer entries) ks). split; [|split].
  - rewrite (loads_store fname (KeyList ks) t db entries w Hf Hs).
    cbn [fst loaded keys_of]. destruct ks as [|k [|k' ks]]; cbn in Hlen; [lia|lia|done].
  - apply length_map.
  - intros i k Hi. rewrite list_lookup_fmap, Hi. done.
Qed.

(** C4.  Where no file exists, a load returns [None] for every key (one
    [None] for a single key, a list of them otherwise) and leaves the
    world as it was: no file is created and no connection is opened. *)
Theorem load_without_file_is_none_and_creates_nothing fname key t w :
  w_files w !! fname = None ->
  sqlite3_loads fname key t w
  = (inr (match keys_of key with
          | [_] => PyNone
          | ks => PyList (replicate (length ks) PyNone)
          end), w).
Proof. apply loads_no_file. Qed.

(** C5.  A load with a plain string key returns the value held for the
    key, or [None], itself and not a list around it. *)
Theorem load_single_key_is_unwrapped fname k entries t w :
  readable (w_files w) fname entries ->
  (sqlite3_loads fname (KeyStr k) t w).1
  = inr (match contents entries !! k with
         | Some v => v
         | None => PyNone
         end).
Proof. intros Hr. by rewrite (loads_readable fname (KeyStr k) t entries w Hr). Qed.

(** C6.  A store of a new key pickles the value at
    [pickle.HIGHEST_PROTOCOL], creates the file and the table [dict] with
    the columns [key] (text, primary key) and [value] (blob) where they do
    not exist yet, and adds the row of the key and the payload after the
    rows already there. *)
Theorem store_creates_dict_and_inserts fname key value b t w :
  pickle_dumps value HIGHEST_PROTOCOL = Some b ->
  dict_ready (file_of (w_files w) fname !! "dict") ->
  key_free key (rows_of (file_of (w_files w) fname !! "dict")) = true ->
  exists w',
    sqlite3_dumps fname key value t w = (inr (), w') /\
    w_files w'
    = <[fname :=
          <["dict" :=
              Table [Column "key" TEXT true; Column "value" BLOB false]
                    (rows_of (file_of (w_files w) fname !! "dict")
                     ++ [[SqlText key; SqlBlob b]])]>
            (file_of (w_files w) fname)]> (w_files w).
Proof.
  intros Hb Hready Hfree. eexists.
  rewrite (dumps_result fname key value b t w Hb Hready). cbn zeta.
  rewrite Hfree. split; [reflexivity|done].
Qed.

(** C7, as the code has it.  Whatever the files hold and whether the call
    returns or raises, [sqlite3_loads] and [sqlite3_dumps] open at most one
    connection, and at the end of the call that connection has no
    transaction open (the [with] block committed or rolled back) and is
    still open: nothing in the call closes it. *)
Theorem calls_end_transaction_keep_connection
    fname key skey value t w :
  (w_conns (sqlite3_loads fname key t w).2 = w_conns w \/
   w_conns (sqlite3_loads fname key t w).2
   = w_conns w ++ [Connection fname (default default_timeout t) None false]) /\
  (w_conns (sqlite3_dumps fname skey value t w).2 = w_conns w \/
   w_conns (sqlite3_dumps fname skey value t w).2
   = w_conns w ++ [Connection fname (default default_timeout t) None false]).
Proof.
  split.
  - rewrite loads_world.
    destruct (bool_decide (is_Some (w_files w !! fname))); [by right|by left].
  - destruct (pickle_dumps value HIGHEST_PROTOCOL) as [b|] eqn:Hb.
    + right. by apply (dumps_conns fname skey value b).
    + left. by rewrite dumps_unpicklable.
Qed.

(** C8.  Without a [timeout] argument, the connection either function
    opens waits up to 7200.0 seconds, which is two hours. *)
Theorem timeout_defaults_to_two_hours fname key skey value b w :
  is_Some (w_files w !! fname) ->
  pickle_dumps value HIGHEST_PROTOCOL = Some b ->
  w_conns (sqlite3_loads fname key None w).2
  = w_conns w ++ [Connection fname 7200%float None false] /\
  w_conns (sqlite3_dumps fname skey value None w).2
  = w_conns w ++ [Connection fname 7200%float None false] /\
  default_timeout = (2 * 3600)%float.
Proof.
  intros Hex Hb. split; [|split].
  - rewrite loads_world, bool_decide_eq_true_2 by done. done.
  - by rewrite (dumps_conns fname skey value b None w Hb).
  - reflexivity.
Qed.

(** C9.  A load with a list of one key is the load with that key as a
    plain string: it returns the value held, or [None], itself and not a
    list of one element. *)
Theorem load_one_key_list_is_unwrapped fname k entries t w :
  readable (w_files w) fname entries ->
  (sqlite3_loads fname (KeyList [k]) t w).1
  = inr (match contents entries !! k with
         | Some v => v
         | None => PyNone
         end) /\
  sqlite3_loads fname (KeyList [k]) t w = sqlite3_loads fname (KeyStr k) t w.
Proof.
  intros Hr. split; [|reflexivity].
  by rewrite (loads_readable fname (KeyList [k]) t entries w Hr).
Qed.

(** C10.  The value is pickled before the connection is opened: when
    pickle refuses it, [sqlite3_dumps] raises and the world is as it was,
    with no file created, no store changed and no connection opened. *)
Theorem store_of_unpicklable_touches_nothing fname key value t w :
  pickle_dumps value HIGHEST_PROTOCOL = None ->
  sqlite3_dumps fname key value t w = (inl PicklingError, w).
Proof. intros Hb. unfold sqlite3_dumps. by rewrite Hb. Qed.

(** *** Further properties of the two functions *)

Lemma mapM_length {A B} (f : A -> M B) (l : list A) w out w' :
  mapM f l w = (inr out, w') -> length out = length l.
Proof.
  revert w out w'. induction l as [|a l IH]; intros w out w'; cbn.
  - by intros [= <- _].
  - unfold mbind, M_bind at 1. destruct (f a w) as [[e|b] w1]; [done|].
    unfold mbind, M_bind at 1.
    destruct (mapM f l w1) as [[e|bs] w2] eqn:Hl; [done|].
    intros [= <- _]. cbn. f_equal. by eapply IH.
Qed.

Lemma with_connection_inr {A} c (body : M A) w a w' :
  with_connection c body w = (inr a, w') -> exists w1, body w = (inr a, w1).
Proof.
  unfold with_connection. destruct (body w) as [[e|a'] w1]; [done|].
  destruct (conn_commit c w1) as [[e|[]] w2]; [done|].
  intros [= <- _]. eauto.
Qed.

(** X1.  A load changes no file, whatever the files hold and whether it
    returns or raises. *)
Theorem load_changes_no_file fname key t w :
  w_files (sqlite3_loads fname key t w).2 = w_files w.
Proof.
  rewrite loads_world.
  by destruct (bool_decide (is_Some (w_files w !! fname))).
Qed.

(** X2.  A load of a list of two or more keys, or of no key, that returns
    normally returns a list with one element per key, whatever the file
    holds. *)
Theorem load_returns_one_result_per_key fname ks t w r :
  length ks <> 1%nat ->
  (sqlite3_loads fname (KeyList ks) t w).1 = inr r ->
  exists out, r = PyList out /\ length out = length ks.
Proof.
  intros Hlen. unfold sqlite3_loads.
  rewrite (bool_decide_eq_false_2 _ Hlen).
  unfold mbind at 1, M_bind at 1.
  match goal with |- context [match ?m w with _ => _ end] =>
    destruct (m w) as [[e|out] w1] eqn:Hm end; [done|].
  cbn. intros [= <-]. exists out. split; [done|].
  revert Hm. unfold os_path_exists. unfold mbind at 1, M_bind at 1.
  destruct (bool_decide (is_Some (w_files w !! fname))).
  - unfold mbind at 1, M_bind at 1.
    destruct (sqlite3_connect _ _ w) as [[e|c] w2]; [done|].
    unfold mbind at 1, M_bind at 1.
    destruct (with_connection c _ w2) as [[e|vals] w3] eqn:Hwith; [done|].
    intros Hdec. apply mapM_length in Hdec.
    apply with_connection_inr in Hwith as [w4 Hloop].
    apply mapM_length in Hloop. congruence.
  - intros [= <- _]. apply length_replicate.
Qed.


Lemma bind_inl {A B} (m : M A) (f : A -> M B) w e w' :
  m w = (inl e, w') -> (m ≫= f) w = (inl e, w').
Proof. intros H. unfold mbind, M_bind. by rewrite H. Qed.


Lemma decode_blob b w :
  decode (SqlBlob b) w
  = (match pickle_loads b with
     | Some o => inr o
     | None => inl UnpicklingError
     end, w).
Proof.
  unfold decode, bytes_of, mbind, M_bind, mret, M_ret.
  by destruct (pickle_loads b).
Qed.


(** X3.  On a file that exists but has no [dict] table, a load of at least
    one key raises [OperationalError]; a load of no key returns the empty
    list. *)
Theorem load_from_file_without_table fname key t db w :
  w_files w !! fname = Some db ->
  db !! "dict" = None ->
  (sqlite3_loads fname key t w).1
  = match keys_of key with
    | [] => inr (PyList [])
    | _ :: _ => inl OperationalError
    end.
Proof.
  intros Hf Ht. unfold sqlite3_loads. fold (keys_of key).
  destruct (keys_of key) as [|k ks].
  - unfold os_path_exists, mbind, M_bind.
    rewrite Hf, bool_decide_eq_true_2 by eauto.
    rewrite (connect_existing _ _ db _ Hf).
    unfold with_connection. cbn [mapM mret M_ret].
    by rewrite commit_opened.
  - erewrite bind_inl; [done|].
    unfold os_path_exists. unfold mbind at 1, M_bind at 1.
    rewrite Hf, bool_decide_eq_true_2 by eauto.
    erewrite bind_inr by apply (connect_existing _ _ db _ Hf).
    erewrite bind_inl; [done|].
    unfold with_connection. cbn [mapM].
    erewrite bind_inl; [reflexivity|].
    erewrite bind_inl; [reflexivity|].
    rewrite execute_opened by done. cbn zeta.
    unfold file_of. cbn [w_files conn_fname]. rewrite Hf.
    cbn [from_option id sql_exec]. rewrite Ht. reflexivity.
Qed.





Lemma readable_store_at files fname entries :
  readable files fname entries -> store_at files fname entries.
Proof.
  unfold readable, store_at. destruct (files !! fname); [by left|done].
Qed.

Lemma answer_old entries key value k :
  k <> key -> answer (entries ++ [(key, value)]) k = answer entries k.
Proof.
  intros Hne. unfold answer, contents.
  induction entries as [|[k0 v0] entries IH]; cbn.
  - rewrite lookup_insert_ne by done. by rewrite lookup_empty.
  - destruct (decide (k0 = k)) as [->|Hk].
    + by rewrite !lookup_insert_eq.
    + by rewrite !lookup_insert_ne.
Qed.


(** What is readable once a store has succeeded. *)
Lemma dumps_readable fname key value b timeout entries w :
  pickle_dumps value HIGHEST_PROTOCOL = Some b ->
  store_at (w_files w) fname entries ->
  key ∉ entries.*1 ->
  exists w',
    sqlite3_dumps fname key value timeout w = (inr (), w') /\
    readable (w_files w') fname (entries ++ [(key, value)]).
Proof.
  intros Hb Hat Hnew.
  destruct (dumps_store fname key value b timeout entries w Hb Hat Hnew)
    as (db' & Hd & Hs).
  eexists. split; [exact Hd|]. unfold readable. cbn [w_files].
  by rewrite lookup_insert_eq.
Qed.

(** X5.  A store that succeeds turns what the file holds, oldest first,
    into the same entries followed by the new one: nothing is dropped or
    reordered, and no key comes to be held twice. *)
Theorem store_appends_one_entry fname key value b t entries w :
  pickle_dumps value HIGHEST_PROTOCOL = Some b ->
  store_at (w_files w) fname entries ->
  key ∉ entries.*1 ->
  exists w' db',
    sqlite3_dumps fname key value t w = (inr (), w') /\
    w_files w' !! fname = Some db' /\
    is_store db' (entries ++ [(key, value)]) /\
    NoDup (entries ++ [(key, value)]).*1.
Proof.
  intros Hb Hat Hnew.
  destruct (dumps_store fname key value b t entries w Hb Hat Hnew)
    as (db' & Hd & Hs).
  eexists _, db'. split; [exact Hd|]. split; [apply lookup_insert_eq|].
  split; [exact Hs|]. by destruct Hs as (_ & _ & _ & Hnd).
Qed.


(** X7.  Two stores under two new, different keys both succeed, and one
    load then returns both values, in the order the keys are asked for. *)
Theorem two_stores_then_one_load fname k1 v1 b1 k2 v2 b2 entries t1 t2 t3 w :
  pickle_dumps v1 HIGHEST_PROTOCOL = Some b1 ->
  pickle_dumps v2 HIGHEST_PROTOCOL = Some b2 ->
  store_at (w_files w) fname entries ->
  k1 ∉ entries.*1 -> k2 ∉ entries.*1 -> k1 <> k2 ->
  exists w1 w2,
    sqlite3_dumps fname k1 v1 t1 w = (inr (), w1) /\
    sqlite3_dumps fname k2 v2 t2 w1 = (inr (), w2) /\
    (sqlite3_loads fname (KeyList [k2; k1]) t3 w2).1 = inr (PyList [v2; v1]).
Proof.
  intros Hb1 Hb2 Hat Hn1 Hn2 Hne.
  destruct (dumps_readable fname k1 v1 b1 t1 entries w Hb1 Hat Hn1)
    as (w1 & Hd1 & Hr1).
  assert (Hn2' : k2 ∉ (entries ++ [(k1, v1)]).*1).
  { rewrite fmap_app, not_elem_of_app. split; [done|].
    cbn. by intros ->%list_elem_of_singleton. }
  destruct (dumps_readable fname k2 v2 b2 t2 _ w1 Hb2
              (readable_store_at _ _ _ Hr1) Hn2') as (w2 & Hd2 & Hr2).
  exists w1, w2. split; [exact Hd1|]. split; [exact Hd2|].
  rewrite (loads_readable fname (KeyList [k2; k1]) t3 _ w2 Hr2).
  cbn [loaded keys_of map]. do 3 f_equal.
  - by apply answer_new.
  - f_equal. rewrite answer_old by done. by apply answer_new.
Qed.


(** The outcome of a store on a file holding [entries]. *)
Lemma dumps_outcome fname key value b timeout entries w :
  pickle_dumps value HIGHEST_PROTOCOL = Some b ->
  store_at (w_files w) fname entries ->
  (sqlite3_dumps fname key value timeout w).1
  = if bool_decide (key ∉ entries.*1) then inr () else inl IntegrityError.
Proof.
  intros Hb Hat.
  destruct (store_at_ready _ _ _ Hat) as (Hready & Hrows & _).
  rewrite (dumps_result fname key value b timeout w Hb Hready). cbn zeta.
  rewrite (key_free_rows _ _ key Hrows).
  by destruct (bool_decide (key ∉ entries.*1)).
Qed.

(** X8.  A store of a picklable value succeeds exactly when the key is
    not held yet; when it is, the store raises [IntegrityError]. *)
Theorem store_succeeds_iff_key_is_new fname key value b t entries w :
  pickle_dumps value HIGHEST_PROTOCOL = Some b ->
  store_at (w_files w) fname entries ->
  ((sqlite3_dumps fname key value t w).1 = inr () <-> key ∉ entries.*1) /\
  ((sqlite3_dumps fname key value t w).1 = inl IntegrityError <-> key ∈ entries.*1).
Proof.
  intros Hb Hat. rewrite (dumps_outcome fname key value b t entries w Hb Hat).
  destruct (bool_decide (key ∉ entries.*1)) eqn:Hk.
  - apply bool_decide_eq_true in Hk. split; split; try done.
  - apply bool_decide_eq_false in Hk. apply dec_stable in Hk.
    split; split; try done.
Qed.

(** X9.  A stored [None] reads like a missing key, but the key is held:
    after [None] has been stored under a new key, a load of the key returns
    [None], and a second store under the key raises [IntegrityError]. *)
Theorem stored_none_still_holds_the_key fname key b value b' entries t1 t2 t3 w :
  pickle_dumps PyNone HIGHEST_PROTOCOL = Some b ->
  pickle_dumps value HIGHEST_PROTOCOL = Some b' ->
  store_at (w_files w) fname entries ->
  key ∉ entries.*1 ->
  exists w1,
    sqlite3_dumps fname key PyNone t1 w = (inr (), w1) /\
    (sqlite3_loads fname (KeyStr key) t2 w1).1 = inr PyNone /\
    (sqlite3_dumps fname key value t3 w1).1 = inl IntegrityError.
Proof.
  intros Hb Hb' Hat Hnew.
  destruct (dumps_readable fname key PyNone b t1 entries w Hb Hat Hnew)
    as (w1 & Hd & Hr).
  exists w1. split; [exact Hd|]. split.
  - rewrite (loads_readable fname (KeyStr key) t2 _ w1 Hr).
    cbn [loaded keys_of]. by rewrite answer_new.
  - rewrite (dumps_outcome fname key value b' t3 _ w1 Hb'
               (readable_store_at _ _ _ Hr)).
    rewrite bool_decide_eq_false_2; [done|].
    intros Hnot. apply Hnot. rewrite fmap_app. apply elem_of_app. right.
    apply list_elem_of_here.
Qed.


Lemma file_of_table files fname t :
  file_of files fname !! "dict" = Some t ->
  files !! fname = Some (file_of files fname).
Proof.
  unfold file_of. destruct (files !! fname); [done|].
  cbn [from_option]. by rewrite lookup_empty.
Qed.

(** What a store does to the files, whatever they hold: when it returns,
    the file at [fname] alone has changed; when it raises, nothing has. *)
Lemma dumps_files fname key value b timeout w r w' :
  pickle_dumps value HIGHEST_PROTOCOL = Some b ->
  sqlite3_dumps fname key value timeout w = (r, w') ->
  (r = inr () /\ exists db', w_files w' = <[fname := db']> (w_files w)) \/
  ((exists e, r = inl e) /\ w_files w' = w_files w).
Proof.
  intros Hb. unfold sqlite3_dumps. rewrite Hb. cbn [lift_option].
  erewrite bind_inr by reflexivity.
  destruct (connect_file fname (default default_timeout timeout) w)
    as (files1 & Hconn & Hf1 & Hins).
  erewrite bind_inr by exact Hconn.
  assert (Hfile1 : file_of files1 fname = file_of (w_files w) fname)
    by (unfold file_of at 1; by rewrite Hf1).
  set (db0 := file_of (w_files w) fname) in *.
  fold create_dict (insert_record key b).
  unfold with_connection, mbind, M_bind.
  rewrite (execute_opened files1 (w_conns w)
             (Connection fname (default default_timeout timeout) None false)
             create_dict eq_refl).
  cbn [conn_fname conn_begin]. cbn zeta. rewrite Hfile1.
  unfold create_dict. cbn [sql_exec].
  destruct (db0 !! "dict") as [t|] eqn:Ht.
  - assert (Hex : w_files w !! fname = Some db0) by by eapply file_of_table.
    rewrite (execute_opened _ (w_conns w)
               (Connection fname (default default_timeout timeout) None false)
               (insert_record key b) eq_refl).
    cbn [conn_fname conn_begin]. cbn zeta.
    assert (Hfile2 : file_of (<[fname := db0]> files1) fname = db0)
      by (unfold file_of; by rewrite lookup_insert_eq).
    rewrite Hfile2.
    destruct (sql_exec (insert_record key b) db0) as [[]|[rows db2]];
      cbn [mret M_ret insert_record];
      rewrite ?commit_opened, ?rollback_opened by done;
      cbn [fst snd w_files set_begin conn_begin conn_fname];
      rewrite ?insert_insert_eq, Hins;
      intros [= <- <-]; cbn [w_files];
      try (right; split; [by eauto|by apply insert_id]).
    left. split; [done|]. by exists db2.
  - rewrite (execute_opened _ (w_conns w)
               (Connection fname (default default_timeout timeout) None false)
               (insert_record key b) eq_refl).
    cbn [conn_fname conn_begin]. cbn zeta.
    set (db1 := <["dict" := Table dict_columns []]> db0).
    assert (Hfile2 : file_of (<[fname := db1]> files1) fname = db1)
      by (unfold file_of; by rewrite lookup_insert_eq).
    rewrite Hfile2.
    rewrite (insert_dict db1 [] key b) by apply lookup_insert_eq.
    cbn [key_free existsb negb mret M_ret insert_record].
    rewrite commit_opened by done. cbn [fst snd w_files].
    rewrite insert_insert_eq, Hins. intros [= <- <-]. left. split; [done|].
    cbn [w_files]. eauto.
Qed.


(** X11.  A store never touches another file: whatever happens, every
    path other than [fname] holds what it held. *)
Theorem store_leaves_other_files_alone fname key value t w other :
  other <> fname ->
  w_files (sqlite3_dumps fname key value t w).2 !! other = w_files w !! other.
Proof.
  intros Hne.
  destruct (pickle_dumps value HIGHEST_PROTOCOL) as [b|] eqn:Hb.
  - destruct (sqlite3_dumps fname key value t w) as [r w'] eqn:Hd.
    cbn [snd].
    destruct (dumps_files fname key value b t w r w' Hb Hd) as [[_ [db' ->]]|[_ ->]];
      [by rewrite lookup_insert_ne|done].
  - by rewrite dumps_unpicklable.
Qed.

(** The outcome of a bind whose second part does not look at the world. *)
Lemma bind_fst {A B} (m m' : M A) (f : A -> M B) w w' :
  (m w).1 = (m' w').1 ->
  (forall a w1 w2, (f a w1).1 = (f a w2).1) ->
  ((m ≫= f) w).1 = ((m' ≫= f) w').1.
Proof.
  intros Hm Hf. unfold mbind, M_bind.
  destruct (m w) as [[e|a] w1], (m' w') as [[e'|a'] w1']; cbn [fst] in *;
    [by injection Hm as ->|done|done|].
  injection Hm as <-. apply Hf.
Qed.

(** The outcome of two loops whose turns agree and leave the world alone. *)
Lemma mapM_fst {A B} (f f' : A -> M B) (l : list A) w w' :
  (forall a, (f a w).1 = (f' a w').1) ->
  (forall a, (f a w).2 = w) ->
  (forall a, (f' a w').2 = w') ->
  (mapM f l w).1 = (mapM f' l w').1.
Proof.
  intros Hff Hf Hf'. induction l as [|a l IH]; [done|]. cbn [mapM].
  unfold mbind, M_bind.
  pose proof (Hff a) as H1. pose proof (Hf a) as H2. pose proof (Hf' a) as H3.
  destruct (f a w) as [[e|b] w1], (f' a w') as [[e'|b'] w1'];
    cbn [fst snd] in *; subst w1 w1'; [by injection H1 as ->|done|done|].
  injection H1 as <-.
  destruct (mapM f l w) as [[e|bs] w2], (mapM f' l w') as [[e'|bs'] w2'];
    cbn [fst] in *; [by injection IH as ->|done|done|].
  by injection IH as <-.
Qed.


Lemma decode_fst v w1 w2 : (decode v w1).1 = (decode v w2).1.
Proof. destruct v; [done|done|by rewrite !decode_blob]. Qed.

(** One turn of the loop of [sqlite3_loads]: its outcome is read off the
    file, whichever connection is used. *)
Lemma loads_body_fst files conns conns' cn cn' k :
  conn_closed cn = false -> conn_closed cn' = false ->
  conn_fname cn = conn_fname cn' ->
  ((rows ← conn_execute (length conns) (SelectWhere "value" "dict" "key" (SqlText k));
    match fetchone rows with
    | None => mret SqlNull
    | Some value => index0 value
    end) (World files (conns ++ [cn]))).1
  = ((rows ← conn_execute (length conns') (SelectWhere "value" "dict" "key" (SqlText k));
      match fetchone rows with
      | None => mret SqlNull
      | Some value => index0 value
      end) (World files (conns' ++ [cn']))).1.
Proof.
  intros Hopen Hopen' Hname. unfold mbind, M_bind.
  rewrite !execute_opened by done. cbn zeta. rewrite Hname.
  destruct (sql_exec _ _) as [[]|[rows db']]; try done.
  destruct (fetchone rows) as [[|v value]|]; done.
Qed.

Lemma loads_body_frame files conns cn k :
  conn_closed cn = false -> is_Some (files !! conn_fname cn) ->
  ((rows ← conn_execute (length conns) (SelectWhere "value" "dict" "key" (SqlText k));
    match fetchone rows with
    | None => mret SqlNull
    | Some value => index0 value
    end) (World files (conns ++ [cn]))).2
  = World files (conns ++ [cn]).
Proof.
  intros Hopen Hex. apply bind_frame.
  - by apply (select_frame _ cn); [apply lookup_opened|].
  - intros rows. destruct (fetchone rows); [apply lift_option_frame|done].
Qed.

(** The outcome of a load, a value or an exception, is read off the files
    alone. *)
Lemma loads_outcome_files fname key t w w' :
  w_files w = w_files w' ->
  (sqlite3_loads fname key t w).1 = (sqlite3_loads fname key t w').1.
Proof.
  destruct w as [files conns], w' as [files' conns']. cbn [w_files].
  intros <-. unfold sqlite3_loads. fold (keys_of key).
  apply bind_fst.
  2:{ intros out w1 w2.
      destruct (bool_decide (length (keys_of key) = 1%nat)); [|done].
      unfold index0. by destruct (head out). }
  erewrite (bind_inr _ _ (World files conns)) by reflexivity.
  erewrite (bind_inr _ _ (World files conns')) by reflexivity.
  cbn [w_files].
  destruct (bool_decide (is_Some (files !! fname))) eqn:Hex; [|done].
  apply bool_decide_eq_true in Hex as [db Hdb].
  erewrite (bind_inr _ _ (World files conns))
    by apply (connect_existing fname _ db (World files conns) Hdb).
  erewrite (bind_inr _ _ (World files conns'))
    by apply (connect_existing fname _ db (World files conns') Hdb).
  cbn [w_files w_conns].
  apply bind_fst.
  2:{ intros out w1 w2. apply mapM_fst; intros v;
        [apply decode_fst|apply decode_frame|apply decode_frame]. }
  rewrite !(with_connection_frame _ (opened fname t));
    try done; try apply lookup_opened;
    try (apply mapM_frame; intros k; apply loads_body_frame; [done|by eauto]).
  apply mapM_fst; intros k.
  - by apply loads_body_fst.
  - apply loads_body_frame; [done|by eauto].
  - apply loads_body_frame; [done|by eauto].
Qed.

(** X12.  A load can be repeated: a second load of the same keys, right
    after the first, has the outcome of the first, be it a value or an
    exception. *)
Theorem load_twice_has_the_same_outcome fname key t w :
  (sqlite3_loads fname key t (sqlite3_loads fname key t w).2).1
  = (sqlite3_loads fname key t w).1.
Proof.
  apply loads_outcome_files. rewrite loads_world.
  by destruct (bool_decide (is_Some (w_files w !! fname))).
Qed.


(** X13.  On a store, or where there is no file, a load of a list of
    keys returns, position by position, what a load of each key alone
    returns. *)
Theorem bulk_load_agrees_with_single_loads fname ks entries t w :
  readable (w_files w) fname entries ->
  length ks <> 1%nat ->
  exists out,
    (sqlite3_loads fname (KeyList ks) t w).1 = inr (PyList out) /\
    Forall2 (fun k v => (sqlite3_loads fname (KeyStr k) t w).1 = inr v) ks out.
Proof.
  intros Hr Hlen. exists (map (answer entries) ks). split.
  - rewrite (loads_readable fname (KeyList ks) t entries w Hr).
    unfold loaded. cbn [keys_of]. by destruct ks as [|k [|k' ks]].
  - apply Forall2_fmap_r, Forall_Forall2_diag, Forall_forall. intros k _.
    by rewrite (loads_readable fname (KeyStr k) t entries w Hr).
Qed.

End Storage.

(** ** The small pickle decodes what it encodes *)

(** Induction on objects, with the elements of a list as smaller objects. *)
Lemma pyobj_nested_ind (P : pyobj -> Prop) :
  P PyNone ->
  (forall b, P (PyBool b)) ->
  (forall z, P (PyInt z)) ->
  (forall s, P (PyStr s)) ->
  (forall d, P (PyBytes d)) ->
  (forall l, Forall P l -> P (PyList l)) ->
  (forall n, P (PyFunction n)) ->
  forall o, P o.
Proof.
  intros HNone HBool HInt HStr HBytes HList HFun.
  fix IH 1. intros [| b | z | s | d | l | n].
  - exact HNone.
  - apply HBool.
  - apply HInt.
  - apply HStr.
  - apply HBytes.
  - apply HList. induction l as [|o l IHl]; constructor; [apply IH|exact IHl].
  - apply HFun.
Qed.

Lemma mini_run_app d1 d2 st :
  MiniPickle.run (d1 ++ d2) st = MiniPickle.run d2 (MiniPickle.run d1 st).
Proof. apply fold_left_app. Qed.

(** Reading the bytes of a string or bytes object. *)
Lemma mini_run_data k d : forall n acc stack,
  length d = S n ->
  MiniPickle.run d (MiniPickle.Data k n acc, stack)
  = (MiniPickle.Op, MiniPickle.Obj (MiniPickle.finish k (acc ++ d)) :: stack).
Proof.
  induction d as [|x d IH]; intros n acc stack Hlen; [done|].
  cbn in Hlen. injection Hlen as Hlen.
  unfold MiniPickle.run. cbn [fold_left MiniPickle.step].
  destruct n as [|n].
  - by destruct d.
  - fold (MiniPickle.run d (MiniPickle.Data k n (acc ++ [x]), stack)).
    rewrite IH by done. by rewrite <- app_assoc.
Qed.

Lemma mini_enter_data k d stack :
  MiniPickle.run d (MiniPickle.enter_data k (length d) stack)
  = (MiniPickle.Op, MiniPickle.Obj (MiniPickle.finish k d) :: stack).
Proof.
  destruct d as [|x d]; [done|].
  cbn [length MiniPickle.enter_data]. by rewrite mini_run_data.
Qed.

Lemma mini_run_str d bs stack :
  MiniPickle.sized x8c d = Some bs ->
  MiniPickle.run bs (MiniPickle.Op, stack)
  = (MiniPickle.Op, MiniPickle.Obj (PyStr (string_of_list_byte d)) :: stack).
Proof.
  unfold MiniPickle.sized. intros Hs.
  destruct (Byte.of_N (N.of_nat (length d))) as [n|] eqn:Hn; [|done].
  injection Hs as <-. apply Byte.to_of_N in Hn.
  unfold MiniPickle.run. cbn [fold_left MiniPickle.step].
  rewrite Hn, Nat2N.id. apply (mini_enter_data MiniPickle.DStr).
Qed.

Lemma mini_run_bytes d bs stack :
  MiniPickle.sized x43 d = Some bs ->
  MiniPickle.run bs (MiniPickle.Op, stack)
  = (MiniPickle.Op, MiniPickle.Obj (PyBytes d) :: stack).
Proof.
  unfold MiniPickle.sized. intros Hs.
  destruct (Byte.of_N (N.of_nat (length d))) as [n|] eqn:Hn; [|done].
  injection Hs as <-. apply Byte.to_of_N in Hn.
  unfold MiniPickle.run. cbn [fold_left MiniPickle.step].
  rewrite Hn, Nat2N.id. apply (mini_enter_data MiniPickle.DBytes).
Qed.

(** [APPENDS] finds the objects pushed since the mark, oldest first. *)
Lemma mini_pop_mark xs acc stack :
  MiniPickle.pop_mark (map MiniPickle.Obj xs ++ MiniPickle.Mark :: stack) acc
  = Some (rev xs ++ acc, stack).
Proof.
  revert acc. induction xs as [|x xs IH]; intros acc; [done|].
  cbn [map app MiniPickle.pop_mark]. rewrite IH. cbn [rev].
  by rewrite <- app_assoc.
Qed.

(** Running the encoding of an object pushes the object. *)
Lemma mini_run_enc o : forall b stack,
  MiniPickle.enc o = Some b ->
  MiniPickle.run b (MiniPickle.Op, stack)
  = (MiniPickle.Op, MiniPickle.Obj o :: stack).
Proof.
  induction o as [| [|] | z | s | d | l IH | n] using pyobj_nested_ind;
    intros b stack Henc; cbn [MiniPickle.enc] in Henc.
  - by injection Henc as <-.
  - by injection Henc as <-.
  - by injection Henc as <-.
  - destruct (bool_decide (0 <= z)%Z) eqn:Hz; [|done].
    apply bool_decide_eq_true in Hz.
    destruct (Byte.of_N (Z.to_N z)) as [n|] eqn:Hn; [|done].
    injection Henc as <-. apply Byte.to_of_N in Hn.
    unfold MiniPickle.run. cbn [fold_left MiniPickle.step].
    by rewrite Hn, Z2N.id.
  - rewrite (mini_run_str _ _ _ Henc). by rewrite string_of_list_byte_of_string.
  - by rewrite (mini_run_bytes _ _ _ Henc).
  - destruct (MiniPickle.concat_enc MiniPickle.enc l) as [items|] eqn:Hitems; [|done].
    injection Henc as <-.
    assert (Hrun : forall st,
      MiniPickle.run items (MiniPickle.Op, st)
      = (MiniPickle.Op, map MiniPickle.Obj (rev l) ++ st)).
    { clear stack. revert items Hitems.
      induction IH as [|o l Ho _ IHl]; intros items Hitems st.
      - by injection Hitems as <-.
      - cbn [MiniPickle.concat_enc] in Hitems.
        destruct (MiniPickle.enc o) as [bo|] eqn:Hbo; [|done].
        cbn in Hitems.
        destruct (MiniPickle.concat_enc MiniPickle.enc l) as [bs|]; [|done].
        injection Hitems as <-.
        rewrite mini_run_app, (Ho bo st eq_refl), (IHl bs eq_refl).
        cbn [rev]. by rewrite map_app, <- app_assoc. }
    change ([x5d; x28] ++ items ++ [x65]) with (x5d :: x28 :: (items ++ [x65])).
    unfold MiniPickle.run at 1. cbn [fold_left MiniPickle.step].
    fold (MiniPickle.run (items ++ [x65])
            (MiniPickle.Op,
             MiniPickle.Mark :: MiniPickle.Obj (PyList []) :: stack)).
    rewrite mini_run_app, Hrun.
    unfold MiniPickle.run. cbn [fold_left MiniPickle.step].
    rewrite mini_pop_mark, rev_involutive, app_nil_r. done.
  - done.
Qed.

Lemma mini_pickle_roundtrip o b :
  MiniPickle.dumps o MiniPickle.HIGHEST_PROTOCOL = Some b ->
  MiniPickle.loads b = Some o.
Proof.
  unfold MiniPickle.dumps.
  rewrite bool_decide_eq_true_2 by (unfold MiniPickle.HIGHEST_PROTOCOL; lia).
  destruct (MiniPickle.enc o) as [body|] eqn:Hbody; [|done].
  cbn. intros [= <-]. unfold MiniPickle.loads.
  change (MiniPickle.run (x80 :: x05 :: body ++ [x2e]) (MiniPickle.Op, []))
    with (MiniPickle.run (body ++ [x2e]) (MiniPickle.Op, [])).
  by rewrite mini_run_app, (mini_run_enc o body [] Hbody).
Qed.

(** ** The module run with the small pickle *)

Lemma example_is_store :
  is_store MiniPickle.HIGHEST_PROTOCOL MiniPickle.dumps example_db example_entries.
Proof.
  eexists. split; [reflexivity|]. split.
  - repeat constructor; eexists; (split; [vm_compute; reflexivity|reflexivity]).
  - apply (bool_decide_unpack (NoDup example_entries.*1)). vm_compute. exact I.
Qed.

Lemma store_then_load_roundtrip_witness :
  exists w',
    sqlite3_dumps MiniPickle.HIGHEST_PROTOCOL MiniPickle.dumps
      "db" "k" nested None empty_world = (inr (), w') /\
    (sqlite3_loads MiniPickle.loads "db" (KeyStr "k") None w').1 = inr nested.
Proof.
  apply (store_then_load_roundtrip MiniPickle.HIGHEST_PROTOCOL MiniPickle.dumps
           MiniPickle.loads mini_pickle_roundtrip
           "db" "k" nested (mini_payload nested) [] None None empty_world).
  - vm_compute. reflexivity.
  - reflexivity.
  - apply not_elem_of_nil.
Defined.

Lemma second_store_fails_first_value_stays_witness :
  exists w',
    sqlite3_dumps MiniPickle.HIGHEST_PROTOCOL MiniPickle.dumps
      "db" "a" (PyStr "z") None example_world = (inl IntegrityError, w') /\
    w_files w' = w_files example_world /\
    (sqlite3_loads MiniPickle.loads "db" (KeyStr "a") None w').1 = inr (PyStr "x").
Proof.
  apply (second_store_fails_first_value_stays MiniPickle.HIGHEST_PROTOCOL
           MiniPickle.dumps MiniPickle.loads mini_pickle_roundtrip
           "db" "a" (PyStr "x") (PyStr "z") (mini_payload (PyStr "z"))
           example_db example_entries None None example_world).
  - reflexivity.
  - exact example_is_store.
  - reflexivity.
  - vm_compute. reflexivity.
Defined.

Lemma load_list_follows_key_order_witness :
  exists out,
    (sqlite3_loads MiniPickle.loads "db" (KeyList ["a"; "missing"; "b"]) None
       example_world).1 = inr (PyList out) /\
    length out = 3%nat /\
    forall i k, ["a"; "missing"; "b"] !! i = Some k ->
      out !! i = Some (match contents example_entries !! k with
                       | Some v => v
                       | None => PyNone
                       end).
Proof.
  apply (load_list_follows_key_order MiniPickle.HIGHEST_PROTOCOL
           MiniPickle.dumps MiniPickle.loads mini_pickle_roundtrip
           "db" ["a"; "missing"; "b"] example_db example_entries None
           example_world).
  - reflexivity.
  - exact example_is_store.
  - simpl. lia.
Defined.

Lemma load_without_file_is_none_and_creates_nothing_witness :
  sqlite3_loads MiniPickle.loads "nowhere" (KeyList ["a"; "b"]) None example_world
  = (inr (PyList [PyNone; PyNone]), example_world).
Proof.
  apply (load_without_file_is_none_and_creates_nothing MiniPickle.loads
           "nowhere" (KeyList ["a"; "b"]) None example_world).
  reflexivity.
Defined.

Lemma load_single_key_is_unwrapped_witness :
  (sqlite3_loads MiniPickle.loads "db" (KeyStr "b") None example_world).1
  = inr (PyStr "y").
Proof.
  apply (load_single_key_is_unwrapped MiniPickle.HIGHEST_PROTOCOL
           MiniPickle.dumps MiniPickle.loads mini_pickle_roundtrip
           "db" "b" example_entries None example_world).
  exact example_is_store.
Defined.

Lemma store_creates_dict_and_inserts_witness :
  exists w',
    sqlite3_dumps MiniPickle.HIGHEST_PROTOCOL MiniPickle.dumps
      "new" "k" nested None empty_world = (inr (), w') /\
    w_files w'
    = {["new" :=
         {["dict" := Table [Column "key" TEXT true; Column "value" BLOB false]
                       [[SqlText "k"; SqlBlob (mini_payload nested)]]]}]}.
Proof.
  apply (store_creates_dict_and_inserts MiniPickle.HIGHEST_PROTOCOL
           MiniPickle.dumps "new" "k" nested (mini_payload nested) None
           empty_world).
  - vm_compute. reflexivity.
  - exact I.
  - reflexivity.
Defined.

Lemma timeout_defaults_to_two_hours_witness :
  w_conns (sqlite3_loads MiniPickle.loads "db" (KeyStr "a") None example_world).2
  = [Connection "db" 7200%float None false] /\
  w_conns (sqlite3_dumps MiniPickle.HIGHEST_PROTOCOL MiniPickle.dumps
             "db" "c" PyNone None example_world).2
  = [Connection "db" 7200%float None false] /\
  default_timeout = (2 * 3600)%float.
Proof.
  apply (timeout_defaults_to_two_hours MiniPickle.HIGHEST_PROTOCOL
           MiniPickle.dumps MiniPickle.loads "db" (KeyStr "a") "c" PyNone
           (mini_payload PyNone) example_world).
  - exists example_db. reflexivity.
  - vm_compute. reflexivity.
Defined.

Lemma load_one_key_list_is_unwrapped_witness :
  (sqlite3_loads MiniPickle.loads "db" (KeyList ["a"]) None example_world).1
  = inr (PyStr "x") /\
  sqlite3_loads MiniPickle.loads "db" (KeyList ["a"]) None example_world
  = sqlite3_loads MiniPickle.loads "db" (KeyStr "a") None example_world.
Proof.
  apply (load_one_key_list_is_unwrapped MiniPickle.HIGHEST_PROTOCOL
           MiniPickle.dumps MiniPickle.loads mini_pickle_roundtrip
           "db" "a" example_entries None example_world).
  exact example_is_store.
Defined.

Lemma store_of_unpicklable_touches_nothing_witness :
  sqlite3_dumps MiniPickle.HIGHEST_PROTOCOL MiniPickle.dumps
    "db" "f" (PyList [PyInt 1; PyFunction "callback"]) None example_world
  = (inl PicklingError, example_world).
Proof.
  apply (store_of_unpicklable_touches_nothing MiniPickle.HIGHEST_PROTOCOL
           MiniPickle.dumps "db" "f" (PyList [PyInt 1; PyFunction "callback"])
           None example_world).
  vm_compute. reflexivity.
Defined.

(** C7, as the spec has it, fails: a load whose payload does not decode
    raises, and the connection it opened is still open afterwards. *)
Lemma connection_left_open_after_decode_failure :
  (sqlite3_loads MiniPickle.loads "db" (KeyStr "a") None corrupt_world).1
  = inl UnpicklingError /\
  ~ released corrupt_world
      (sqlite3_loads MiniPickle.loads "db" (KeyStr "a") None corrupt_world).2.
Proof.
  split; [vm_compute; reflexivity|].
  intros Hrel.
  specialize (Hrel 0%nat (Connection "db" 7200%float None false)).
  assert (H : false = true); [|discriminate H].
  apply Hrel; [simpl; lia|]. vm_compute. reflexivity.
Qed.

(** The example of the specification: after [a = "x"] and [b = "y"] have
    been stored in a new file, the store is the example store and loading
    [["a"; "missing"; "b"]] returns [["x"; None; "y"]]. *)
Example two_stores_then_load :
  let w1 := (sqlite3_dumps MiniPickle.HIGHEST_PROTOCOL MiniPickle.dumps
               "db" "a" (PyStr "x") None empty_world).2 in
  let w2 := (sqlite3_dumps MiniPickle.HIGHEST_PROTOCOL MiniPickle.dumps
               "db" "b" (PyStr "y") None w1).2 in
  w_files w2 = w_files example_world /\
  (sqlite3_loads MiniPickle.loads "db" (KeyList ["a"; "missing"; "b"]) None w2).1
  = inr (PyList [PyStr "x"; PyNone; PyStr "y"]).
Proof. split; vm_compute; reflexivity. Qed.

(** A file that exists without a [dict] table is not a store: a load
    from it raises. *)
Example load_from_empty_file :
  (sqlite3_loads MiniPickle.loads "db" (KeyStr "a") None
     (World {["db" := ∅]} [])).1 = inl OperationalError.
Proof. vm_compute. reflexivity. Qed.

(** ** The further properties run with the small pickle *)

Lemma example_readable :
  readable MiniPickle.HIGHEST_PROTOCOL MiniPickle.dumps
    (w_files example_world) "db" example_entries.
Proof.
  unfold readable. change (w_files example_world !! "db") with (Some example_db).
  exact example_is_store.
Qed.

Lemma example_store_at :
  store_at MiniPickle.HIGHEST_PROTOCOL MiniPickle.dumps
    (w_files example_world) "db" example_entries.
Proof.
  unfold store_at. change (w_files example_world !! "db") with (Some example_db).
  left. exact example_is_store.
Qed.

Lemma example_key_is_new : "c" ∉ example_entries.*1.
Proof.
  apply (bool_decide_unpack ("c" ∉ example_entries.*1)). vm_compute. exact I.
Qed.

Lemma load_returns_one_result_per_key_witness :
  exists out,
    PyList [PyStr "x"; PyNone; PyStr "y"] = PyList out /\ length out = 3%nat.
Proof.
  apply (load_returns_one_result_per_key MiniPickle.loads "db"
           ["a"; "missing"; "b"] None example_world).
  - simpl. lia.
  - vm_compute. reflexivity.
Defined.

Lemma load_from_file_without_table_witness :
  (sqlite3_loads MiniPickle.loads "db" (KeyStr "a") None
     (World {["db" := ∅]} [])).1 = inl OperationalError.
Proof.
  apply (load_from_file_without_table MiniPickle.loads "db" (KeyStr "a") None
           ∅ (World {["db" := ∅]} [])).
  - reflexivity.
  - reflexivity.
Defined.


Lemma store_appends_one_entry_witness :
  exists w' db',
    sqlite3_dumps MiniPickle.HIGHEST_PROTOCOL MiniPickle.dumps
      "db" "c" nested None example_world = (inr (), w') /\
    w_files w' !! "db" = Some db' /\
    is_store MiniPickle.HIGHEST_PROTOCOL MiniPickle.dumps db'
      (example_entries ++ [("c", nested)]) /\
    NoDup (example_entries ++ [("c", nested)]).*1.
Proof.
  apply (store_appends_one_entry MiniPickle.HIGHEST_PROTOCOL MiniPickle.dumps
           "db" "c" nested (mini_payload nested) None example_entries
           example_world).
  - vm_compute. reflexivity.
  - exact example_store_at.
  - exact example_key_is_new.
Defined.


Lemma two_stores_then_one_load_witness :
  exists w1 w2,
    sqlite3_dumps MiniPickle.HIGHEST_PROTOCOL MiniPickle.dumps
      "db" "a" (PyStr "x") None empty_world = (inr (), w1) /\
    sqlite3_dumps MiniPickle.HIGHEST_PROTOCOL MiniPickle.dumps
      "db" "b" nested None w1 = (inr (), w2) /\
    (sqlite3_loads MiniPickle.loads "db" (KeyList ["b"; "a"]) None w2).1
    = inr (PyList [nested; PyStr "x"]).
Proof.
  apply (two_stores_then_one_load MiniPickle.HIGHEST_PROTOCOL
           MiniPickle.dumps MiniPickle.loads mini_pickle_roundtrip
           "db" "a" (PyStr "x") (mini_payload (PyStr "x"))
           "b" nested (mini_payload nested) [] None None None empty_world).
  - vm_compute. reflexivity.
  - vm_compute. reflexivity.
  - reflexivity.
  - apply not_elem_of_nil.
  - apply not_elem_of_nil.
  - discriminate.
Defined.

Lemma store_succeeds_iff_key_is_new_witness :
  ((sqlite3_dumps MiniPickle.HIGHEST_PROTOCOL MiniPickle.dumps
      "db" "a" (PyStr "z") None example_world).1 = inr ()
   <-> "a" ∉ example_entries.*1) /\
  ((sqlite3_dumps MiniPickle.HIGHEST_PROTOCOL MiniPickle.dumps
      "db" "a" (PyStr "z") None example_world).1 = inl IntegrityError
   <-> "a" ∈ example_entries.*1).
Proof.
  apply (store_succeeds_iff_key_is_new MiniPickle.HIGHEST_PROTOCOL
           MiniPickle.dumps "db" "a" (PyStr "z") (mini_payload (PyStr "z"))
           None example_entries example_world).
  - vm_compute. reflexivity.
  - exact example_store_at.
Defined.

Lemma stored_none_still_holds_the_key_witness :
  exists w1,
    sqlite3_dumps MiniPickle.HIGHEST_PROTOCOL MiniPickle.dumps
      "db" "c" PyNone None example_world = (inr (), w1) /\
    (sqlite3_loads MiniPickle.loads "db" (KeyStr "c") None w1).1 = inr PyNone /\
    (sqlite3_dumps MiniPickle.HIGHEST_PROTOCOL MiniPickle.dumps
       "db" "c" nested None w1).1 = inl IntegrityError.
Proof.
  apply (stored_none_still_holds_the_key MiniPickle.HIGHEST_PROTOCOL
           MiniPickle.dumps MiniPickle.loads mini_pickle_roundtrip
           "db" "c" (mini_payload PyNone) nested (mini_payload nested)
           example_entries None None None example_world).
  - vm_compute. reflexivity.
  - vm_compute. reflexivity.
  - exact example_store_at.
  - exact example_key_is_new.
Defined.


Lemma store_leaves_other_files_alone_witness :
  w_files (sqlite3_dumps MiniPickle.HIGHEST_PROTOCOL MiniPickle.dumps
             "new" "k" nested None example_world).2 !! "db"
  = w_files example_world !! "db".
Proof.
  apply (store_leaves_other_files_alone MiniPickle.HIGHEST_PROTOCOL
           MiniPickle.dumps "new" "k" nested None example_world "db").
  discriminate.
Defined.

Lemma bulk_load_agrees_with_single_loads_witness :
  exists out,
    (sqlite3_loads MiniPickle.loads "db" (KeyList ["a"; "missing"; "b"]) None
       example_world).1 = inr (PyList out) /\
    Forall2 (fun k v =>
               (sqlite3_loads MiniPickle.loads "db" (KeyStr k) None
                  example_world).1 = inr v)
      ["a"; "missing"; "b"] out.
Proof.
  apply (bulk_load_agrees_with_single_loads MiniPickle.HIGHEST_PROTOCOL
           MiniPickle.dumps MiniPickle.loads mini_pickle_roundtrip
           "db" ["a"; "missing"; "b"] example_entries None example_world).
  - exact example_readable.
  - simpl. lia.
Defined.
